(** * Dashboard metric queries (packages/shared/src/server/repositories/dashboards.ts)

    A shallow embedding of the seven metric templates and the two time
    bucketing helpers, together with the properties of the SQL text and the
    parameter map each template hands to the store. *)

From Stdlib Require Import Ascii.
From stdpp Require Import gmap strings pretty list fin_maps.

#[local] Set Warnings "-clear-no-such-hyp".

(** ** SQL text

    Template literals produce plain strings.  The properties below speak about
    text occurring inside the generated SQL, so we need substring search and a
    few facts on how it distributes over concatenation. *)

Definition nl : string := String (Ascii.ascii_of_nat 10) EmptyString.

(** [starts n s]: [s] starts with [n]. *)
Fixpoint starts (n s : string) : bool :=
  match n, s with
  | EmptyString, _ => true
  | String _ _, EmptyString => false
  | String a n', String b s' => Ascii.eqb a b && starts n' s'
  end.

(** [occurs n s]: the text [n] occurs somewhere in [s]. *)
Fixpoint occurs (n s : string) : bool :=
  starts n s ||
  match s with
  | EmptyString => false
  | String _ s' => occurs n s'
  end.

(** [has_char c n]: the character [c] occurs in [n]. *)
Fixpoint has_char (c : Ascii.ascii) (n : string) : bool :=
  match n with
  | EmptyString => false
  | String a n' => Ascii.eqb a c || has_char c n'
  end.

(** [proper_start u n]: [u] is a strict initial segment of [n]. *)
Fixpoint proper_start (u n : string) : bool :=
  match u, n with
  | EmptyString, EmptyString => false
  | EmptyString, String _ _ => true
  | String _ _, EmptyString => false
  | String a u', String b n' => Ascii.eqb a b && proper_start u' n'
  end.

(** [sealed n a]: no non-empty tail of [a] is a strict initial segment of
    [n], i.e. an occurrence of [n] cannot begin inside [a] and run past its
    end. *)
Fixpoint sealed (n a : string) : bool :=
  match a with
  | EmptyString => true
  | String _ a' => negb (proper_start a n) && sealed n a'
  end.



(** ** JavaScript glue

    The few pieces of JavaScript semantics the templates rely on. *)

(** A template literal prints an undefined value as the text "undefined". *)
Definition interp (o : option string) : string :=
  match o with
  | Some s => s
  | None => "undefined"
  end.

(** Whatever [Array.prototype.find] returns is an object or undefined, so its
    truth value is whether something was found. *)
Definition truthy {A} (o : option A) : bool :=
  match o with
  | Some _ => true
  | None => false
  end.

(** Joins the lines of a multi-line template literal. *)
Fixpoint unlines (ls : list string) : string :=
  match ls with
  | [] => ""
  | [l] => l
  | l :: ls' => l +:+ nl +:+ unlines ls'
  end.

(** ** Time bucketing *)

(** [DateTrunc] is a compile-time union of six string literals; at run time
    the argument is a string and the [switch] compares it with [===]. *)
Definition DateTrunc := string.

Definition dateTruncs : list DateTrunc :=
  ["year"; "month"; "week"; "day"; "hour"; "minute"].

Definition orderByTimeSeries (dateTrunc : DateTrunc) (col : string) : option string :=
  interval ←
    (if String.eqb dateTrunc "year" then Some "toIntervalYear(1)"
     else if String.eqb dateTrunc "month" then Some "toIntervalMonth(1)"
     else if String.eqb dateTrunc "week" then Some "toIntervalWeek(1)"
     else if String.eqb dateTrunc "day" then Some "toIntervalDay(1)"
     else if String.eqb dateTrunc "hour" then Some "toIntervalHour(1)"
     else if String.eqb dateTrunc "minute" then Some "toIntervalMinute(1)"
     else None);
  Some ("ORDER BY " +:+ col +:+ " ASC WITH FILL STEP " +:+ interval).

Definition selectTimeseriesColumn (dateTrunc : DateTrunc) (col as_ : string) : option string :=
  interval ←
    (if String.eqb dateTrunc "year" then Some "toStartOfYear"
     else if String.eqb dateTrunc "month" then Some "toStartOfMonth"
     else if String.eqb dateTrunc "week" then Some "toStartOfWeek"
     else if String.eqb dateTrunc "day" then Some "toStartOfDay"
     else if String.eqb dateTrunc "hour" then Some "toStartOfHour"
     else if String.eqb dateTrunc "minute" then Some "toStartOfMinute"
     else None);
  Some (interval +:+ "(" +:+ col +:+ ") as " +:+ as_).

(** ** Values, filters and calls *)

Section Values.

(** JavaScript numbers (IEEE doubles) and [Date] objects are kept abstract. *)
Variables (number date : Type).

Inductive JSValue : Type :=
| VUndefined
| VString (s : string)
| VNumber (x : number)
| VDate (d : date).

(** A plain object; reading a missing property gives undefined. *)
Definition get (o : gmap string JSValue) (k : string) : JSValue :=
  default VUndefined (o !! k).

(** [{ ...o1, ...o2 }]: on a shared key the later spread wins. *)
Definition spread (o1 o2 : gmap string JSValue) : gmap string JSValue :=
  o2 ∪ o1.

(** The templates read three fields of a filter ([field], [operator],
    [clickhouseTable]) and, for a time filter, its [value]. *)
Record Filter := {
  field : string;
  operator : string;
  value : JSValue;
  clickhouseTable : string
}.

Definition FilterList := list Filter.

(** The result of [FilterList.apply()]. *)
Record AppliedFilter := {
  query : string;
  params : gmap string JSValue
}.

(** What a template passes to [queryClickhouse]. *)
Record Call := {
  call_query : string;
  call_params : gmap string JSValue
}.

(** The three predicates given to [chFilter.find]. *)
Definition onTraces (f : Filter) : bool :=
  String.eqb (clickhouseTable f) "traces".

Definition scoreTimeLowerBound (f : Filter) : bool :=
  String.eqb (field f) "timestamp" &&
  (String.eqb (operator f) ">=" || String.eqb (operator f) ">").

Definition observationTimeLowerBound (f : Filter) : bool :=
  String.eqb (clickhouseTable f) "observations" &&
  String.eqb (field f) "start_time" &&
  (String.eqb (operator f) ">=" || String.eqb (operator f) ">").

End Values.

Arguments VUndefined {number date}.
Arguments VString {number date} s.
Arguments VNumber {number date} x.
Arguments VDate {number date} d.
Arguments get {number date} o k.
Arguments spread {number date} o1 o2.
Arguments Build_Filter {number date}.
Arguments field {number date} f.
Arguments operator {number date} f.
Arguments value {number date} f.
Arguments clickhouseTable {number date} f.
Arguments Build_AppliedFilter {number date}.
Arguments query {number date} a.
Arguments params {number date} a.
Arguments Build_Call {number date}.
Arguments call_query {number date} c.
Arguments call_params {number date} c.
Arguments onTraces {number date} f.
Arguments scoreTimeLowerBound {number date} f.
Arguments observationTimeLowerBound {number date} f.

(** ** What the file imports

    [FilterList], [createFilterFromFilterState] with the column catalog
    [dashboardColumnDefinitions], [convertDateToClickhouseDateTime] and the
    store client [queryClickhouse] live in other modules; [Number] and
    [new Date] are the language's.  The templates are written against this
    interface.  The filter input is assumed catalog-validated, so compiling
    it is total; the store client either yields rows or throws. *)
Class Imports (number date FilterState exn : Type) := {
  Number : JSValue number date -> number;
  newDate : JSValue number date -> date;
  createFilterFromFilterState : FilterState -> FilterList number date;
  FilterList_apply : FilterList number date -> AppliedFilter number date;
  convertDateToClickhouseDateTime : JSValue number date -> string;
  queryClickhouse :
    string -> gmap string (JSValue number date) ->
    exn + list (gmap string (JSValue number date))
}.

(** [await] on a call that may throw. *)
Definition await {E A B} (m : E + A) (k : A -> E + B) : E + B :=
  match m with
  | inl e => inl e
  | inr a => k a
  end.

(** ** Metric templates *)

Section Templates.

Context {number date FilterState exn : Type}.
Context `{imports : !Imports number date FilterState exn}.

Abbreviation JSValue := (JSValue number date).
Abbreviation Call := (Call number date).

Definition run (c : Call) : exn + list (gmap string JSValue) :=
  queryClickhouse (call_query c) (call_params c).

Definition leftJoinTraces : string :=
  "LEFT JOIN traces t ON o.trace_id = t.id AND o.project_id = t.project_id".

(** **** getTotalTraces *)

Definition getTotalTraces_call (projectId : string) (filter : FilterState) : Call :=
  let chFilter := FilterList_apply (createFilterFromFilterState filter) in
  {| call_query := unlines [
       "";
       "    SELECT ";
       "      count(id) as count ";
       "    FROM traces t FINAL ";
       "    WHERE project_id = {projectId: String}";
       "    AND " +:+ query chFilter ];
     call_params :=
       spread {[ "projectId" := VString projectId ]} (params chFilter) |}.

Definition getTotalTraces (projectId : string) (filter : FilterState)
  : exn + option (list (gmap string JSValue)) :=
  await (run (getTotalTraces_call projectId filter)) (fun result =>
  match result with
  | [] => inr None
  | row0 :: _ => inr (Some [ {[ "countTraceId" := get row0 "count" ]} ])
  end).

(** **** getObservationsCostGroupedByName *)

Definition getObservationsCostGroupedByName_call
    (projectId : string) (filter : FilterState) : Call :=
  let chFilter := createFilterFromFilterState filter in
  let appliedFilter := FilterList_apply chFilter in
  let hasTraceFilter := List.find onTraces chFilter in
  {| call_query := unlines [
       "";
       "    SELECT ";
       "      provided_model_name as name,";
       "      sumMap(cost_details)['total'] as sum_cost_details,";
       "      sumMap(usage_details)['total'] as sum_usage_details";
       "    FROM observations o FINAL " +:+
         (if truthy hasTraceFilter then leftJoinTraces else "");
       "    WHERE project_id = {projectId: String}";
       "    AND " +:+ query appliedFilter;
       "    GROUP BY provided_model_name";
       "    ORDER BY sumMap(cost_details)['total'] DESC";
       "    " ];
     call_params :=
       spread {[ "projectId" := VString projectId ]} (params appliedFilter) |}.

Definition getObservationsCostGroupedByName (projectId : string) (filter : FilterState)
  : exn + list (gmap string JSValue) :=
  await (run (getObservationsCostGroupedByName_call projectId filter)) (fun result =>
  inr result).

(** **** getScoreAggregate *)

Definition getScoreAggregate_call (projectId : string) (filter : FilterState) : Call :=
  let chFilter := createFilterFromFilterState filter in
  let timeFilter := List.find scoreTimeLowerBound chFilter in
  let chFilterApplied := FilterList_apply chFilter in
  let hasTraceFilter := List.find onTraces chFilter in
  {| call_query := unlines [
       "";
       "    SELECT ";
       "      s.name,";
       "      count(*) as count,";
       "      avg(s.value) as avg_value,";
       "      s.source,";
       "      s.data_type";
       "    FROM scores s FINAL ";
       "     " +:+
         (if truthy hasTraceFilter
          then "JOIN traces t FINAL ON t.id = s.trace_id AND t.project_id = s.project_id"
          else "");
       "    WHERE s.project_id = {projectId: String}";
       "    AND " +:+ query chFilterApplied;
       "    " +:+
         (if truthy timeFilter && truthy hasTraceFilter
          then "AND t.timestamp >= {tracesTimestamp: DateTime} - INTERVAL 1 HOUR"
          else "");
       "    GROUP BY s.name, s.source, s.data_type";
       "    ORDER BY count(*) DESC";
       "    " ];
     call_params :=
       spread
         (spread {[ "projectId" := VString projectId ]} (params chFilterApplied))
         (match timeFilter with
          | Some tf =>
              {[ "tracesTimestamp" :=
                   VString (convertDateToClickhouseDateTime (value tf)) ]}
          | None => ∅
          end) |}.

Definition getScoreAggregate (projectId : string) (filter : FilterState)
  : exn + list (gmap string JSValue) :=
  await (run (getScoreAggregate_call projectId filter)) (fun result =>
  inr result).

(** **** groupTracesByTime *)

Definition groupTracesByTime_call
    (projectId : string) (filter : FilterState) (groupBy : DateTrunc) : Call :=
  let chFilter := FilterList_apply (createFilterFromFilterState filter) in
  {| call_query := unlines [
       "";
       "    SELECT ";
       "      " +:+ interp (selectTimeseriesColumn groupBy "timestamp" "timestamp") +:+ ",";
       "      count(*) as count";
       "    FROM traces t FINAL";
       "    WHERE project_id = {projectId: String}";
       "    AND " +:+ query chFilter;
       "    GROUP BY timestamp";
       "    " +:+ interp (orderByTimeSeries groupBy "timestamp");
       "    " ];
     call_params :=
       spread {[ "projectId" := VString projectId ]} (params chFilter) |}.

Definition groupTracesByTime
    (projectId : string) (filter : FilterState) (groupBy : DateTrunc)
  : exn + list (gmap string JSValue) :=
  await (run (groupTracesByTime_call projectId filter groupBy)) (fun result =>
  inr ((fun row : gmap string JSValue =>
          {[ "timestamp" := VDate (newDate (get row "timestamp"));
             "countTraceId" := VNumber (Number (get row "count")) ]}) <$> result)).

(** **** getObservationUsageByTime *)

Definition getObservationUsageByTime_call
    (projectId : string) (filter : FilterState) (groupBy : DateTrunc) : Call :=
  let chFilter := createFilterFromFilterState filter in
  let appliedFilter := FilterList_apply chFilter in
  {| call_query := unlines [
       "";
       "    SELECT ";
       "      " +:+ interp (selectTimeseriesColumn groupBy "start_time" "start_time") +:+ ",";
       "      sumMap(usage_details)['total'] as sum_usage_details,";
       "      sumMap(cost_details)['total'] as sum_cost_details,";
       "      provided_model_name";
       "    FROM observations o FINAL";
       "    " +:+
         (if truthy (List.find onTraces chFilter) then leftJoinTraces else "");
       "    WHERE project_id = {projectId: String}";
       "    AND " +:+ query appliedFilter;
       "    GROUP BY start_time, provided_model_name";
       "    " +:+ interp (orderByTimeSeries groupBy "start_time");
       "    " ];
     call_params :=
       spread {[ "projectId" := VString projectId ]} (params appliedFilter) |}.

Definition getObservationUsageByTime
    (projectId : string) (filter : FilterState) (groupBy : DateTrunc)
  : exn + list (gmap string JSValue) :=
  await (run (getObservationUsageByTime_call projectId filter groupBy)) (fun result =>
  inr ((fun row : gmap string JSValue =>
          {[ "start_time" := VDate (newDate (get row "start_time"));
             "sum_usage_details" := VNumber (Number (get row "sum_usage_details"));
             "sum_cost_details" := get row "sum_cost_details";
             "provided_model_name" := get row "provided_model_name" ]}) <$> result)).

(** **** getDistinctModels *)

Definition getDistinctModels_call (projectId : string) (filter : FilterState) : Call :=
  let chFilter := createFilterFromFilterState filter in
  let appliedFilter := FilterList_apply chFilter in
  {| call_query := unlines [
       "";
       "    SELECT ";
       "      distinct(provided_model_name) as model";
       "    FROM observations o FINAL";
       "    " +:+
         (if truthy (List.find onTraces chFilter) then leftJoinTraces else "");
       "    WHERE project_id = {projectId: String}";
       "    AND " +:+ query appliedFilter;
       "    " ];
     call_params :=
       spread {[ "projectId" := VString projectId ]} (params appliedFilter) |}.

Definition getDistinctModels (projectId : string) (filter : FilterState)
  : exn + list (gmap string JSValue) :=
  await (run (getDistinctModels_call projectId filter)) (fun result =>
  inr result).

(** **** getModelUsageByUser *)

Definition getModelUsageByUser_call (projectId : string) (filter : FilterState) : Call :=
  let chFilter := createFilterFromFilterState filter in
  let appliedFilter := FilterList_apply chFilter in
  let timeFilter := List.find observationTimeLowerBound chFilter in
  {| call_query := unlines [
       "";
       "    SELECT ";
       "      sumMap(usage_details)['total'] as sum_usage_details,";
       "      sumMap(cost_details)['total'] as sum_cost_details,";
       "      user_id";
       "    FROM observations o FINAL";
       "      JOIN traces t ON o.trace_id = t.id AND o.project_id = t.project_id";
       "    WHERE project_id = {projectId: String}";
       "    AND t.user_id IS NOT NULL";
       "    AND " +:+ query appliedFilter;
       "    " +:+
         (if truthy timeFilter
          then "AND t.timestamp >= {tractTimestamp: DateTime} - INTERVAL 1 HOUR"
          else "");
       "    GROUP BY user_id";
       "    " ];
     call_params :=
       spread
         (spread {[ "projectId" := VString projectId ]} (params appliedFilter))
         (match timeFilter with
          | Some tf => {[ "tractTimestamp" := value tf ]}
          | None => ∅
          end) |}.

Definition getModelUsageByUser (projectId : string) (filter : FilterState)
  : exn + list (gmap string JSValue) :=
  await (run (getModelUsageByUser_call projectId filter)) (fun result =>
  inr ((fun row : gmap string JSValue =>
          {[ "sumUsageDetails" := VNumber (Number (get row "sum_usage_details"));
             "sumCostDetails" := VNumber (Number (get row "sum_cost_details"));
             "userId" := get row "user_id" ]}) <$> result)).

End Templates.

(** ** Named placeholders *)

(** Modelled from the spec: the store's named-placeholder syntax
    `{name: Type}` (section 6); the store client that reads it is not among
    the sources.  A placeholder opens at a brace, its name runs up to the
    colon, and its type up to the closing brace. *)
Inductive scan : Type :=
| Outside
| InName (acc : string)
| InType.

Definition scan_step (st : scan) (c : Ascii.ascii) : scan * list string :=
  match st with
  | Outside =>
      if Ascii.eqb c "{"%char then (InName "", []) else (Outside, [])
  | InName acc =>
      if Ascii.eqb c ":"%char then (InType, [acc])
      else if Ascii.eqb c "}"%char then (Outside, [])
      else (InName (acc +:+ String c ""), [])
  | InType =>
      if Ascii.eqb c "}"%char then (Outside, []) else (InType, [])
  end.

Fixpoint placeholders_from (st : scan) (s : string) : list string :=
  match s with
  | "" => []
  | String c s' =>
      let '(st', out) := scan_step st c in out ++ placeholders_from st' s'
  end.

Fixpoint scan_end (st : scan) (s : string) : scan :=
  match s with
  | "" => st
  | String c s' => scan_end (scan_step st c).1 s'
  end.

(** The names of the placeholders of a query. *)
Definition placeholders (s : string) : list string :=
  placeholders_from Outside s.

(** A text that leaves no placeholder open. *)
Definition closed_text (s : string) : Prop :=
  scan_end Outside s = Outside.

(** ** A reference filter compiler *)

Section Reference.

Context {number date : Type}.

(** Modelled from the spec: the placeholder type written after the colon,
    chosen from the kind of the bound value. *)
Definition chType (v : JSValue number date) : string :=
  match v with
  | VDate _ => "DateTime64(3)"
  | VNumber _ => "Decimal64(12)"
  | _ => "String"
  end.

(** Modelled from the spec: placeholder names made collision-free by the
    position of the filter in its list (section 4.1). *)
Definition placeholderName (i : nat) (f : Filter number date) : string :=
  field f +:+ "_" +:+ pretty i.

(** Modelled from the spec: one predicate, rendered with its table-qualified
    column and its placeholder (section 4.1). *)
Definition renderFilter (naming : nat -> Filter number date -> string)
    (i : nat) (f : Filter number date) : string :=
  clickhouseTable f +:+ "." +:+ field f +:+ " " +:+ operator f +:+
  " {" +:+ naming i f +:+ ": " +:+ chType (value f) +:+ "}".

Fixpoint joinAnd (q : string) (qs : list string) : string :=
  match qs with
  | [] => q
  | q' :: qs' => q +:+ " AND " +:+ joinAnd q' qs'
  end.

(** Modelled from the spec: [FilterList.apply] of clickhouse-filter.ts, which
    is not among the sources (section 4.1): the conjunction of all predicates
    with one placeholder each, and the tautology 1=1 with no parameters for
    the empty list. *)
Definition reference_apply (naming : nat -> Filter number date -> string)
    (fs : FilterList number date) : AppliedFilter number date :=
  match imap (renderFilter naming) fs with
  | [] => {| query := "1=1"; params := ∅ |}
  | q :: qs =>
      {| query := joinAnd q qs;
         params := list_to_map (imap (fun i f => (naming i f, value f)) fs) |}
  end.

End Reference.

(** ** A small world to run the templates in

    Numbers are integers, dates are their ISO text, a filter description is
    already a filter list, and the store answers every query with the same
    canned response. *)

Fixpoint readDigits (acc : Z) (s : string) : Z :=
  match s with
  | "" => acc
  | String c s' => readDigits (10 * acc + (Z.of_nat (Ascii.nat_of_ascii c) - 48))%Z s'
  end.

Definition demoNumber (v : JSValue Z string) : Z :=
  match v with
  | VNumber x => x
  | VString s => readDigits 0 s
  | _ => 0%Z
  end.

Definition demoDate (v : JSValue Z string) : string :=
  match v with
  | VDate d => d
  | VString s => s
  | _ => "Invalid Date"
  end.

Definition world (naming : nat -> Filter Z string -> string)
    (response : string + list (gmap string (JSValue Z string)))
  : Imports Z string (FilterList Z string) string := {|
  Number := demoNumber;
  newDate := demoDate;
  createFilterFromFilterState := fun fs => fs;
  FilterList_apply := reference_apply naming;
  convertDateToClickhouseDateTime := demoDate;
  queryClickhouse := fun _ _ => response
|}.

(** The usual world names placeholders by field and position. *)
Definition demo := world placeholderName.

(** A world whose compiler names a placeholder after the field alone. *)
Definition demoByField := world (fun _ f => field f).

Definition scoreTimestampFilter : Filter Z string :=
  {| field := "timestamp"; operator := ">=";
     value := VDate "2024-01-01T00:00:00.000Z"; clickhouseTable := "scores" |}.

Definition traceNameFilter : Filter Z string :=
  {| field := "name"; operator := "=";
     value := VString "checkout"; clickhouseTable := "traces" |}.

Definition observationStartFilter : Filter Z string :=
  {| field := "start_time"; operator := ">";
     value := VDate "2024-01-01T00:00:00.000Z"; clickhouseTable := "observations" |}.

Definition projectIdFilter : Filter Z string :=
  {| field := "projectId"; operator := "=";
     value := VString "other-project"; clickhouseTable := "traces" |}.

Definition scoreRow : gmap string (JSValue Z string) :=
  {[ "name" := VString "accuracy"; "count" := VString "5";
     "avg_value" := VString "0.5"; "source" := VString "API";
     "data_type" := VString "NUMERIC" ]}.

Definition bucketRow : gmap string (JSValue Z string) :=
  {[ "timestamp" := VString "2024-01-01 10:00:00"; "count" := VString "1" ]}.

Definition countRow : gmap string (JSValue Z string) :=
  {[ "count" := VString "5" ]}.

Definition laterScoreTimestampFilter : Filter Z string :=
  {| field := "timestamp"; operator := ">";
     value := VDate "2024-06-01T00:00:00.000Z"; clickhouseTable := "scores" |}.

Definition traceTimestampFilter : Filter Z string :=
  {| field := "timestamp"; operator := ">=";
     value := VDate "2024-03-01T00:00:00.000Z"; clickhouseTable := "traces" |}.

Definition laterObservationStartFilter : Filter Z string :=
  {| field := "start_time"; operator := ">=";
     value := VDate "2024-06-01T00:00:00.000Z"; clickhouseTable := "observations" |}.

Definition usageRow : gmap string (JSValue Z string) :=
  {[ "sum_usage_details" := VString "1200"; "user_id" := VString "user-1";
     "unrelated" := VString "x" ]}.

(** ** Project scoping *)

Fixpoint skip (k : nat) (s : string) : string :=
  match k, s with
  | S k', String _ s' => skip k' s'
  | _, _ => s
  end.

(** [after n s]: what follows the first occurrence of [n] in [s]. *)
Fixpoint after (n s : string) : option string :=
  if starts n s then Some (skip (String.length n) s)
  else match s with
       | "" => None
       | String _ s' => after n s'
       end.

(** The WHERE clause of [sql] opens with the exact-match predicate on the
    project, and the compiled filter [q] is conjoined to it with AND, either
    directly or after the one fixed conjunct of the usage-by-user query. *)
Definition scoped_by_project (sql q : string) : Prop :=
  exists qual mid post,
    after "WHERE " sql =
      Some (qual +:+ "project_id = {projectId: String}" +:+ mid +:+ "AND " +:+ q +:+ post) /\
    (qual = "" \/ qual = "s.") /\
    (mid = nl +:+ "    " \/
     mid = nl +:+ "    AND t.user_id IS NOT NULL" +:+ nl +:+ "    ").

(** * Properties *)

(** ** Occurrences in concatenated text *)

Lemma occurs_empty_needle s : occurs "" s = true.
Proof. destruct s; reflexivity. Qed.

Lemma starts_app_sealed n u s :
  proper_start u n = false -> starts n (u +:+ s) = starts n u.
Proof.
  revert u. induction n as [|a n IH]; intros u Hu.
  - reflexivity.
  - destruct u as [|b u]; simpl in *.
    + discriminate.
    + destruct (Ascii.eqb a b) eqn:E.
      * rewrite Ascii.eqb_sym in Hu. rewrite E in Hu. simpl in *. now apply IH.
      * reflexivity.
Qed.

Lemma starts_app_char n u c s :
  has_char c n = false -> starts n (u +:+ String c s) = starts n u.
Proof.
  revert u. induction n as [|a n IH]; intros u Hc.
  - reflexivity.
  - simpl in Hc. apply orb_false_iff in Hc as [Hac Hc].
    destruct u as [|b u]; simpl.
    + now rewrite Hac.
    + rewrite IH by assumption. reflexivity.
Qed.

(** A needle cannot straddle the end of a sealed literal. *)
Lemma occurs_app_sealed n a s :
  sealed n a = true -> occurs n (a +:+ s) = occurs n a || occurs n s.
Proof.
  induction a as [|c a IH]; intros Hs.
  - simpl. destruct n; simpl; [now rewrite occurs_empty_needle | reflexivity].
  - cbn [sealed] in Hs. apply andb_true_iff in Hs as [Hp Hs].
    apply negb_true_iff in Hp.
    change (String c a +:+ s) with (String c (a +:+ s)).
    cbn [occurs].
    change (String c (a +:+ s)) with (String c a +:+ s).
    rewrite (starts_app_sealed _ _ _ Hp), (IH Hs).
    now rewrite !orb_assoc.
Qed.

(** A needle cannot straddle a character it does not contain. *)
Lemma occurs_app_char n q c s :
  has_char c n = false ->
  occurs n (q +:+ String c s) = occurs n q || occurs n s.
Proof.
  intros Hc. induction q as [|b q IH].
  - simpl (EmptyString +:+ _). cbn [occurs].
    destruct n as [|a n]; [now rewrite occurs_empty_needle|].
    simpl in *. apply orb_false_iff in Hc as [-> _]. reflexivity.
  - change (String b q +:+ String c s) with (String b (q +:+ String c s)).
    cbn [occurs].
    change (String b (q +:+ String c s)) with (String b q +:+ String c s).
    rewrite (starts_app_char _ _ _ _ Hc), IH.
    now rewrite !orb_assoc.
Qed.

Lemma app_assoc (a b c : string) : (a +:+ b) +:+ c = a +:+ (b +:+ c).
Proof.
  induction a as [|x a IH]; [reflexivity|].
  change (String x ((a +:+ b) +:+ c) = String x (a +:+ b +:+ c)). now f_equal.
Qed.

(** The shape every template has: literal text, the compiled filter, a line
    break, more literal text. *)
Lemma occurs_sandwich n a q b :
  sealed n a = true -> has_char (Ascii.ascii_of_nat 10) n = false ->
  occurs n (a +:+ q +:+ nl +:+ b) = occurs n a || occurs n q || occurs n b.
Proof.
  intros Ha Hn. rewrite (occurs_app_sealed _ _ _ Ha).
  change (nl +:+ b) with (String (Ascii.ascii_of_nat 10) b).
  rewrite (occurs_app_char _ _ _ _ Hn). now rewrite orb_assoc.
Qed.

(** [occurs] is substring containment. *)
Lemma starts_spec n s : starts n s = true <-> exists r, s = n +:+ r.
Proof.
  revert s. induction n as [|a n IH]; intros s; simpl.
  - split; eauto.
  - destruct s as [|b s].
    + split; [discriminate | intros [r Hr]; discriminate].
    + rewrite andb_true_iff, IH. split.
      * intros [Hab [r ->]]. apply Ascii.eqb_eq in Hab as ->. eauto.
      * intros [r Hr]. injection Hr as -> ->. split; [apply Ascii.eqb_refl | eauto].
Qed.

Lemma occurs_spec n s :
  occurs n s = true <-> exists l r, s = l +:+ n +:+ r.
Proof.
  induction s as [|c s IH]; cbn [occurs]; rewrite orb_true_iff, starts_spec.
  - split.
    + intros [[r Hr] | ?]; [exists "", r; exact Hr | discriminate].
    + intros (l & r & H). left. destruct l; [eauto | discriminate].
  - rewrite IH. split.
    + intros [[r Hr] | (l & r & ->)]; [exists "", r; exact Hr | exists (String c l), r; reflexivity].
    + intros (l & r & H). destruct l as [|d l]; [left; eauto|].
      right. injection H as _ ->. eauto.
Qed.

Lemma app_empty_r (s : string) : s +:+ "" = s.
Proof.
  induction s as [|c s IH]; [reflexivity|].
  change (String c (s +:+ "") = String c s). now f_equal.
Qed.

Lemma occurs_app_l n a s : occurs n a = true -> occurs n (a +:+ s) = true.
Proof.
  rewrite !occurs_spec. intros (l & r & ->). exists l, (r +:+ s).
  now rewrite !app_assoc.
Qed.

Lemma occurs_app_r n a s : occurs n s = true -> occurs n (a +:+ s) = true.
Proof.
  rewrite !occurs_spec. intros (l & r & ->). exists (a +:+ l), r.
  now rewrite !app_assoc.
Qed.

(** [after] cuts the text at an occurrence of the needle. *)
Lemma starts_skip n s : starts n s = true -> s = n +:+ skip (String.length n) s.
Proof.
  revert s. induction n as [|a n IH]; intros [|b s] H; try reflexivity; try discriminate.
  cbn [starts] in H. apply andb_true_iff in H as [Hab H].
  apply Ascii.eqb_eq in Hab as ->.
  change (String b s = String b (n +:+ skip (String.length n) s)).
  f_equal. now apply IH.
Qed.

Lemma after_spec n s r : after n s = Some r -> exists l, s = l +:+ n +:+ r.
Proof.
  induction s as [|c s IH]; cbn [after]; destruct (starts n _) eqn:E.
  - intros [= <-]. exists "". now apply starts_skip.
  - discriminate.
  - intros [= <-]. exists "". now apply starts_skip.
  - intros (l & ->)%IH. now exists (String c l).
Qed.

(** ** Scanning concatenated text *)

Lemma placeholders_from_app st a b :
  placeholders_from st (a +:+ b) =
  placeholders_from st a ++ placeholders_from (scan_end st a) b.
Proof.
  revert st. induction a as [|c a IH]; intros st; [reflexivity|].
  change (String c a +:+ b) with (String c (a +:+ b)).
  cbn [placeholders_from scan_end]. destruct (scan_step st c) as [st' out].
  cbn [fst]. now rewrite IH, <- List.app_assoc.
Qed.

Lemma scan_end_app st a b : scan_end st (a +:+ b) = scan_end (scan_end st a) b.
Proof.
  revert st. induction a as [|c a IH]; intros st; [reflexivity|].
  change (String c a +:+ b) with (String c (a +:+ b)). cbn [scan_end]. apply IH.
Qed.

Lemma placeholders_app a b :
  closed_text a -> placeholders (a +:+ b) = placeholders a ++ placeholders b.
Proof. intros Ha. unfold placeholders. now rewrite placeholders_from_app, Ha. Qed.

Lemma placeholders_sandwich a q b :
  closed_text a -> closed_text q ->
  placeholders (a +:+ q +:+ nl +:+ b) =
  placeholders a ++ placeholders q ++ placeholders b.
Proof.
  intros Ha Hq. rewrite (placeholders_app _ _ Ha), (placeholders_app _ _ Hq).
  reflexivity.
Qed.

(** ** What [find] tells *)

Lemma truthy_find {A} (p : A -> bool) (l : list A) :
  truthy (List.find p l) = true <-> exists x, In x l /\ p x = true.
Proof.
  destruct (List.find p l) as [x|] eqn:E; simpl.
  - apply List.find_some in E. split; eauto.
  - split; [discriminate|]. intros (x & Hx & Hp).
    pose proof (List.find_none _ _ E x Hx). congruence.
Qed.

(** ** Time bucketing *)

Lemma dateTruncs_inv (d : DateTrunc) :
  d ∈ dateTruncs ->
  d = "year" \/ d = "month" \/ d = "week" \/ d = "day" \/ d = "hour" \/ d = "minute".
Proof. unfold dateTruncs. rewrite !elem_of_cons, elem_of_nil. tauto. Qed.

Lemma dateTruncs_other (d : DateTrunc) :
  d ∉ dateTruncs ->
  String.eqb d "year" = false /\ String.eqb d "month" = false /\
  String.eqb d "week" = false /\ String.eqb d "day" = false /\
  String.eqb d "hour" = false /\ String.eqb d "minute" = false.
Proof.
  unfold dateTruncs. rewrite !not_elem_of_cons. intros (?&?&?&?&?&?&_).
  rewrite !String.eqb_neq. tauto.
Qed.

Lemma selectTimeseriesColumn_other d col as_ :
  d ∉ dateTruncs -> selectTimeseriesColumn d col as_ = None.
Proof.
  intros (E1&E2&E3&E4&E5&E6)%dateTruncs_other. unfold selectTimeseriesColumn.
  now rewrite E1, E2, E3, E4, E5, E6.
Qed.

Lemma orderByTimeSeries_other d col :
  d ∉ dateTruncs -> orderByTimeSeries d col = None.
Proof.
  intros (E1&E2&E3&E4&E5&E6)%dateTruncs_other. unfold orderByTimeSeries.
  now rewrite E1, E2, E3, E4, E5, E6.
Qed.

(** C4: each of the six granularities yields the truncation to the start of
    its period, aliased to the output name, and an ascending ORDER BY with a
    fill step of one unit of that granularity; any other input yields no
    clause from either helper. *)
Theorem time_bucketing_clauses :
  (forall col as_,
     selectTimeseriesColumn "year" col as_ = Some ("toStartOfYear(" +:+ col +:+ ") as " +:+ as_) /\
     selectTimeseriesColumn "month" col as_ = Some ("toStartOfMonth(" +:+ col +:+ ") as " +:+ as_) /\
     selectTimeseriesColumn "week" col as_ = Some ("toStartOfWeek(" +:+ col +:+ ") as " +:+ as_) /\
     selectTimeseriesColumn "day" col as_ = Some ("toStartOfDay(" +:+ col +:+ ") as " +:+ as_) /\
     selectTimeseriesColumn "hour" col as_ = Some ("toStartOfHour(" +:+ col +:+ ") as " +:+ as_) /\
     selectTimeseriesColumn "minute" col as_ = Some ("toStartOfMinute(" +:+ col +:+ ") as " +:+ as_)) /\
  (forall col,
     orderByTimeSeries "year" col = Some ("ORDER BY " +:+ col +:+ " ASC WITH FILL STEP toIntervalYear(1)") /\
     orderByTimeSeries "month" col = Some ("ORDER BY " +:+ col +:+ " ASC WITH FILL STEP toIntervalMonth(1)") /\
     orderByTimeSeries "week" col = Some ("ORDER BY " +:+ col +:+ " ASC WITH FILL STEP toIntervalWeek(1)") /\
     orderByTimeSeries "day" col = Some ("ORDER BY " +:+ col +:+ " ASC WITH FILL STEP toIntervalDay(1)") /\
     orderByTimeSeries "hour" col = Some ("ORDER BY " +:+ col +:+ " ASC WITH FILL STEP toIntervalHour(1)") /\
     orderByTimeSeries "minute" col = Some ("ORDER BY " +:+ col +:+ " ASC WITH FILL STEP toIntervalMinute(1)")) /\
  (forall d col as_,
     d ∉ dateTruncs ->
     selectTimeseriesColumn d col as_ = None /\ orderByTimeSeries d col = None).
Proof.
  split; [|split].
  - intros col as_. repeat split; reflexivity.
  - intros col. repeat split; reflexivity.
  - intros d col as_ Hd. split.
    + now apply selectTimeseriesColumn_other.
    + now apply orderByTimeSeries_other.
Qed.

Lemma time_bucketing_clauses_witness :
  ("quarter" ∉ dateTruncs) /\
  selectTimeseriesColumn "quarter" "timestamp" "timestamp" = None /\
  orderByTimeSeries "quarter" "timestamp" = None.
Proof.
  assert (H : "quarter" ∉ dateTruncs)
    by (intros H%dateTruncs_inv; intuition discriminate).
  split; [exact H|].
  exact (proj2 (proj2 time_bucketing_clauses) "quarter" "timestamp" "timestamp" H).
Defined.

(** ** The predicates handed to [find] *)

Lemma onTraces_spec {number date} (f : Filter number date) :
  onTraces f = true <-> clickhouseTable f = "traces".
Proof. unfold onTraces. apply String.eqb_eq. Qed.

Lemma scoreTimeLowerBound_spec {number date} (f : Filter number date) :
  scoreTimeLowerBound f = true <->
  field f = "timestamp" /\ (operator f = ">" \/ operator f = ">=").
Proof.
  unfold scoreTimeLowerBound.
  rewrite andb_true_iff, orb_true_iff, !String.eqb_eq. tauto.
Qed.

Lemma observationTimeLowerBound_spec {number date} (f : Filter number date) :
  observationTimeLowerBound f = true <->
  clickhouseTable f = "observations" /\ field f = "start_time" /\
  (operator f = ">" \/ operator f = ">=").
Proof.
  unfold observationTimeLowerBound.
  rewrite !andb_true_iff, orb_true_iff, !String.eqb_eq. tauto.
Qed.

Lemma has_filter {number date} (p : Filter number date -> bool) (P : Filter number date -> Prop)
    (fl : FilterList number date) :
  (forall f, p f = true <-> P f) ->
  truthy (List.find p fl) = true <-> exists f, In f fl /\ P f.
Proof.
  intros Hp. rewrite truthy_find. split; intros (f & Hf & H); exists f; split; auto;
    now apply Hp.
Qed.

(** Splits on whether a granularity is one of the six. *)
Ltac bucket_cases d :=
  let Hin := fresh "Hin" in
  let Hout := fresh "Hout" in
  destruct (decide (d ∈ dateTruncs)) as [Hin | Hout];
  [ apply dateTruncs_inv in Hin;
    destruct Hin as [-> | [-> | [-> | [-> | [-> | ->]]]]]
  | rewrite ?(selectTimeseriesColumn_other _ _ _ Hout),
            ?(orderByTimeSeries_other _ _ Hout) ].

(** Evaluates the occurrence tests on literal text. *)
Ltac eval_occurs :=
  repeat match goal with
  | |- context [occurs ?n (unlines ?ls)] =>
      let v := eval vm_compute in (occurs n (unlines ls)) in
      replace (occurs n (unlines ls)) with v by (vm_compute; reflexivity)
  end.

(** Evaluates the placeholders of literal text. *)
Ltac eval_placeholders :=
  repeat match goal with
  | |- context [placeholders (unlines ?ls)] =>
      let v := eval vm_compute in (placeholders (unlines ls)) in
      replace (placeholders (unlines ls)) with v by (vm_compute; reflexivity)
  end.

Ltac sandwich := rewrite occurs_sandwich by (vm_compute; reflexivity).

(** ** The shape of the generated SQL

    Every template is literal text up to the compiled filter, the compiled
    filter, and (except for the trace count, where the filter ends the query)
    a line break and more literal text. *)

Section Facts.

Context {number date FilterState exn : Type}.
Context `{imports : !Imports number date FilterState exn}.

Implicit Types (projectId : string) (filter : FilterState) (groupBy : DateTrunc).

Local Abbreviation compiled filter :=
  (FilterList_apply (createFilterFromFilterState filter)).

Lemma getTotalTraces_shape projectId filter :
  call_query (getTotalTraces_call projectId filter) =
  unlines [ "";
            "    SELECT ";
            "      count(id) as count ";
            "    FROM traces t FINAL ";
            "    WHERE project_id = {projectId: String}";
            "    AND " ]
  +:+ query (compiled filter).
Proof. reflexivity. Qed.

Lemma getObservationsCostGroupedByName_shape projectId filter :
  call_query (getObservationsCostGroupedByName_call projectId filter) =
  unlines [ "";
            "    SELECT ";
            "      provided_model_name as name,";
            "      sumMap(cost_details)['total'] as sum_cost_details,";
            "      sumMap(usage_details)['total'] as sum_usage_details";
            "    FROM observations o FINAL " +:+
              (if truthy (List.find onTraces (createFilterFromFilterState filter))
               then leftJoinTraces else "");
            "    WHERE project_id = {projectId: String}";
            "    AND " ]
  +:+ query (compiled filter) +:+ nl +:+
  unlines [ "    GROUP BY provided_model_name";
            "    ORDER BY sumMap(cost_details)['total'] DESC";
            "    " ].
Proof.
  unfold getObservationsCostGroupedByName_call. cbn [call_query].
  destruct (truthy _); reflexivity.
Qed.

Lemma getScoreAggregate_shape projectId filter :
  call_query (getScoreAggregate_call projectId filter) =
  unlines [ "";
            "    SELECT ";
            "      s.name,";
            "      count(*) as count,";
            "      avg(s.value) as avg_value,";
            "      s.source,";
            "      s.data_type";
            "    FROM scores s FINAL ";
            "     " +:+
              (if truthy (List.find onTraces (createFilterFromFilterState filter))
               then "JOIN traces t FINAL ON t.id = s.trace_id AND t.project_id = s.project_id"
               else "");
            "    WHERE s.project_id = {projectId: String}";
            "    AND " ]
  +:+ query (compiled filter) +:+ nl +:+
  unlines [ "    " +:+
              (if truthy (List.find scoreTimeLowerBound (createFilterFromFilterState filter))
                  && truthy (List.find onTraces (createFilterFromFilterState filter))
               then "AND t.timestamp >= {tracesTimestamp: DateTime} - INTERVAL 1 HOUR"
               else "");
            "    GROUP BY s.name, s.source, s.data_type";
            "    ORDER BY count(*) DESC";
            "    " ].
Proof.
  unfold getScoreAggregate_call. cbn [call_query].
  destruct (truthy (List.find onTraces _)); reflexivity.
Qed.

Lemma groupTracesByTime_shape projectId filter groupBy :
  call_query (groupTracesByTime_call projectId filter groupBy) =
  unlines [ "";
            "    SELECT ";
            "      " +:+ interp (selectTimeseriesColumn groupBy "timestamp" "timestamp") +:+ ",";
            "      count(*) as count";
            "    FROM traces t FINAL";
            "    WHERE project_id = {projectId: String}";
            "    AND " ]
  +:+ query (compiled filter) +:+ nl +:+
  unlines [ "    GROUP BY timestamp";
            "    " +:+ interp (orderByTimeSeries groupBy "timestamp");
            "    " ].
Proof.
  unfold groupTracesByTime_call. cbn [call_query].
  destruct (decide (groupBy ∈ dateTruncs)) as [Hin | Hout].
  - apply dateTruncs_inv in Hin.
    destruct Hin as [-> | [-> | [-> | [-> | [-> | ->]]]]]; reflexivity.
  - rewrite (selectTimeseriesColumn_other _ _ _ Hout), (orderByTimeSeries_other _ _ Hout).
    reflexivity.
Qed.

Lemma getObservationUsageByTime_shape projectId filter groupBy :
  call_query (getObservationUsageByTime_call projectId filter groupBy) =
  unlines [ "";
            "    SELECT ";
            "      " +:+ interp (selectTimeseriesColumn groupBy "start_time" "start_time") +:+ ",";
            "      sumMap(usage_details)['total'] as sum_usage_details,";
            "      sumMap(cost_details)['total'] as sum_cost_details,";
            "      provided_model_name";
            "    FROM observations o FINAL";
            "    " +:+
              (if truthy (List.find onTraces (createFilterFromFilterState filter))
               then leftJoinTraces else "");
            "    WHERE project_id = {projectId: String}";
            "    AND " ]
  +:+ query (compiled filter) +:+ nl +:+
  unlines [ "    GROUP BY start_time, provided_model_name";
            "    " +:+ interp (orderByTimeSeries groupBy "start_time");
            "    " ].
Proof.
  unfold getObservationUsageByTime_call. cbn [call_query].
  destruct (truthy _);
    (destruct (decide (groupBy ∈ dateTruncs)) as [Hin | Hout];
     [ apply dateTruncs_inv in Hin;
       destruct Hin as [-> | [-> | [-> | [-> | [-> | ->]]]]]; reflexivity
     | rewrite (selectTimeseriesColumn_other _ _ _ Hout), (orderByTimeSeries_other _ _ Hout);
       reflexivity ]).
Qed.

Lemma getDistinctModels_shape projectId filter :
  call_query (getDistinctModels_call projectId filter) =
  unlines [ "";
            "    SELECT ";
            "      distinct(provided_model_name) as model";
            "    FROM observations o FINAL";
            "    " +:+
              (if truthy (List.find onTraces (createFilterFromFilterState filter))
               then leftJoinTraces else "");
            "    WHERE project_id = {projectId: String}";
            "    AND " ]
  +:+ query (compiled filter) +:+ nl +:+ unlines [ "    " ].
Proof.
  unfold getDistinctModels_call. cbn [call_query].
  destruct (truthy _); reflexivity.
Qed.

Lemma getModelUsageByUser_shape projectId filter :
  call_query (getModelUsageByUser_call projectId filter) =
  unlines [ "";
            "    SELECT ";
            "      sumMap(usage_details)['total'] as sum_usage_details,";
            "      sumMap(cost_details)['total'] as sum_cost_details,";
            "      user_id";
            "    FROM observations o FINAL";
            "      JOIN traces t ON o.trace_id = t.id AND o.project_id = t.project_id";
            "    WHERE project_id = {projectId: String}";
            "    AND t.user_id IS NOT NULL";
            "    AND " ]
  +:+ query (compiled filter) +:+ nl +:+
  unlines [ "    " +:+
              (if truthy (List.find observationTimeLowerBound (createFilterFromFilterState filter))
               then "AND t.timestamp >= {tractTimestamp: DateTime} - INTERVAL 1 HOUR"
               else "");
            "    GROUP BY user_id";
            "    " ].
Proof. reflexivity. Qed.

(** ** Join elision *)

(** C1 (amended): for the three metrics that join traces only to filter on
    them, the SQL mentions a join on traces exactly when some filter is
    tagged with the table traces; the usage-by-user metric joins traces
    whatever the filters are. *)
Theorem join_elision projectId filter groupBy :
  occurs "JOIN traces" (query (compiled filter)) = false ->
  (occurs "JOIN traces"
     (call_query (getObservationsCostGroupedByName_call projectId filter)) = true <->
   exists f, In f (createFilterFromFilterState filter) /\ clickhouseTable f = "traces") /\
  (occurs "JOIN traces"
     (call_query (getObservationUsageByTime_call projectId filter groupBy)) = true <->
   exists f, In f (createFilterFromFilterState filter) /\ clickhouseTable f = "traces") /\
  (occurs "JOIN traces"
     (call_query (getDistinctModels_call projectId filter)) = true <->
   exists f, In f (createFilterFromFilterState filter) /\ clickhouseTable f = "traces") /\
  occurs "JOIN traces" (call_query (getModelUsageByUser_call projectId filter)) = true.
Proof.
  intros Hq.
  rewrite <- (has_filter onTraces _ _ onTraces_spec).
  rewrite getObservationsCostGroupedByName_shape, getObservationUsageByTime_shape,
    getDistinctModels_shape, getModelUsageByUser_shape.
  split; [|split; [|split]].
  - destruct (truthy _); sandwich; rewrite Hq; eval_occurs; cbn; intuition congruence.
  - destruct (truthy _); bucket_cases groupBy; sandwich; rewrite Hq; eval_occurs; cbn;
      intuition congruence.
  - destruct (truthy _); sandwich; rewrite Hq; eval_occurs; cbn; intuition congruence.
  - apply occurs_app_l. vm_compute. reflexivity.
Qed.

(** ** The widened trace-timestamp bound *)

(** C2: the score aggregate carries the trace-timestamp lower bound, widened
    by one hour, exactly when the filters hold both a lower bound on the
    field timestamp and a filter on the table traces. *)
Theorem score_join_widening projectId filter :
  occurs "t.timestamp >= {tracesTimestamp: DateTime} - INTERVAL 1 HOUR"
    (query (compiled filter)) = false ->
  occurs "t.timestamp >= {tracesTimestamp: DateTime} - INTERVAL 1 HOUR"
    (call_query (getScoreAggregate_call projectId filter)) = true <->
  (exists f, In f (createFilterFromFilterState filter) /\
             field f = "timestamp" /\ (operator f = ">" \/ operator f = ">=")) /\
  (exists f, In f (createFilterFromFilterState filter) /\ clickhouseTable f = "traces").
Proof.
  intros Hq.
  rewrite <- (has_filter onTraces _ _ onTraces_spec).
  rewrite <- (has_filter scoreTimeLowerBound _ _ scoreTimeLowerBound_spec).
  rewrite getScoreAggregate_shape.
  destruct (truthy (List.find onTraces _)), (truthy (List.find scoreTimeLowerBound _));
    sandwich; rewrite Hq; eval_occurs; cbn; intuition congruence.
Qed.

(** C7: the usage-by-user query joins traces with a plain (inner) JOIN on
    trace and project, excludes traces without a user, groups by user, and
    carries the one-hour widened trace-timestamp bound, right after the
    compiled filter, exactly when some filter is a lower bound on
    observations.start_time. *)
Theorem usage_by_user_query projectId filter :
  let sql := call_query (getModelUsageByUser_call projectId filter) in
  let q := query (compiled filter) in
  let widened := "t.timestamp >= {tractTimestamp: DateTime} - INTERVAL 1 HOUR" in
  let lowerBound := exists f, In f (createFilterFromFilterState filter) /\
      clickhouseTable f = "observations" /\ field f = "start_time" /\
      (operator f = ">" \/ operator f = ">=") in
  occurs ("FROM observations o FINAL" +:+ nl +:+
          "      JOIN traces t ON o.trace_id = t.id AND o.project_id = t.project_id" +:+ nl)
         sql = true /\
  (occurs "LEFT JOIN" q = false -> occurs "LEFT JOIN" sql = false) /\
  occurs "AND t.user_id IS NOT NULL" sql = true /\
  occurs "GROUP BY user_id" sql = true /\
  (occurs widened q = false -> (occurs widened sql = true <-> lowerBound)) /\
  (lowerBound ->
   occurs (q +:+ nl +:+ "    AND " +:+ widened +:+ nl +:+ "    GROUP BY user_id") sql = true).
Proof.
  intros sql q widened lowerBound. subst sql q widened lowerBound.
  rewrite <- (has_filter observationTimeLowerBound _ _ observationTimeLowerBound_spec).
  rewrite getModelUsageByUser_shape.
  split; [|split; [|split; [|split; [|split]]]].
  - apply occurs_app_l. vm_compute. reflexivity.
  - intros Hq. destruct (truthy _); sandwich; rewrite Hq; eval_occurs; reflexivity.
  - apply occurs_app_l. vm_compute. reflexivity.
  - apply occurs_app_r, occurs_app_r, occurs_app_r.
    destruct (truthy _); vm_compute; reflexivity.
  - intros Hq. destruct (truthy _); sandwich; rewrite Hq; eval_occurs; cbn;
      intuition congruence.
  - intros ->. apply occurs_app_r. apply occurs_spec. exists "", (nl +:+ "    ").
    generalize (query (compiled filter)). intros q.
    rewrite !app_assoc. reflexivity.
Qed.

(** ** Granularities outside the enum *)

(** C10: with one of the six granularities both helpers return a clause and
    the two time-series queries are free of the text "undefined" (as long as
    the compiled filter is); with any other string both helpers return
    nothing and each query carries the text "undefined" where the column and
    the ordering should be. *)
Theorem undefined_granularity projectId filter groupBy :
  let traces := call_query (groupTracesByTime_call projectId filter groupBy) in
  let usage := call_query (getObservationUsageByTime_call projectId filter groupBy) in
  (groupBy ∈ dateTruncs ->
     (forall col as_, is_Some (selectTimeseriesColumn groupBy col as_) /\
                      is_Some (orderByTimeSeries groupBy col)) /\
     (occurs "undefined" (query (compiled filter)) = false ->
      occurs "undefined" traces = false /\ occurs "undefined" usage = false)) /\
  (groupBy ∉ dateTruncs ->
     (forall col as_, selectTimeseriesColumn groupBy col as_ = None /\
                      orderByTimeSeries groupBy col = None) /\
     occurs (nl +:+ "      undefined," +:+ nl) traces = true /\
     occurs (nl +:+ "    undefined" +:+ nl) traces = true /\
     occurs (nl +:+ "      undefined," +:+ nl) usage = true /\
     occurs (nl +:+ "    undefined" +:+ nl) usage = true).
Proof.
  intros traces usage. subst traces usage.
  rewrite groupTracesByTime_shape, getObservationUsageByTime_shape.
  split.
  - intros Hin. apply dateTruncs_inv in Hin. split.
    + intros col as_.
      destruct Hin as [-> | [-> | [-> | [-> | [-> | ->]]]]]; split; eexists; reflexivity.
    + intros Hq.
      destruct Hin as [-> | [-> | [-> | [-> | [-> | ->]]]]];
        (split; [| destruct (truthy _)]); sandwich; rewrite Hq; eval_occurs; reflexivity.
  - intros Hout. split; [|repeat split].
    + intros col as_. split.
      * now apply selectTimeseriesColumn_other.
      * now apply orderByTimeSeries_other.
    + rewrite (selectTimeseriesColumn_other _ _ _ Hout).
      apply occurs_app_l. vm_compute. reflexivity.
    + rewrite (orderByTimeSeries_other _ _ Hout).
      apply occurs_app_r, occurs_app_r, occurs_app_r. vm_compute. reflexivity.
    + rewrite (selectTimeseriesColumn_other _ _ _ Hout).
      apply occurs_app_l. destruct (truthy _); vm_compute; reflexivity.
    + rewrite (orderByTimeSeries_other _ _ Hout).
      apply occurs_app_r, occurs_app_r, occurs_app_r. vm_compute. reflexivity.
Qed.

(** ** Project scoping *)

(** C8: in every template the WHERE clause opens with the exact-match
    predicate on the project, the compiled filter is conjoined to it with
    AND, and the parameter map binds projectId. *)
Theorem project_scoping projectId filter groupBy :
  Forall (fun c => scoped_by_project (call_query c) (query (compiled filter)) /\
                   is_Some (call_params c !! "projectId"))
    [ getTotalTraces_call projectId filter;
      getObservationsCostGroupedByName_call projectId filter;
      getScoreAggregate_call projectId filter;
      groupTracesByTime_call projectId filter groupBy;
      getObservationUsageByTime_call projectId filter groupBy;
      getDistinctModels_call projectId filter;
      getModelUsageByUser_call projectId filter ].
Proof.
  assert (Hp : forall extra : gmap string (JSValue number date),
             is_Some (spread (spread {[ "projectId" := VString projectId ]}
                                (params (compiled filter))) extra !! "projectId")).
  { intros extra. unfold spread. rewrite !lookup_union_is_Some.
    right. right. rewrite lookup_singleton_eq. eauto. }
  assert (Hp' : is_Some (spread {[ "projectId" := VString projectId ]}
                           (params (compiled filter)) !! "projectId")).
  { unfold spread. rewrite !lookup_union_is_Some.
    right. rewrite lookup_singleton_eq. eauto. }
  repeat (apply List.Forall_cons); try apply List.Forall_nil;
    (split; [| first [exact Hp' | exact (Hp _)]]).
  - rewrite getTotalTraces_shape. generalize (query (compiled filter)). intros q.
    exists "", (nl +:+ "    "), "". split; [|auto].
    rewrite app_empty_r. reflexivity.
  - rewrite getObservationsCostGroupedByName_shape.
    generalize (query (compiled filter)). intros q.
    destruct (truthy _);
      (exists "", (nl +:+ "    "); eexists; split; [reflexivity | auto]).
  - rewrite getScoreAggregate_shape.
    generalize (query (compiled filter)). intros q.
    destruct (truthy (List.find onTraces _));
      (exists "s.", (nl +:+ "    "); eexists; split; [reflexivity | auto]).
  - rewrite groupTracesByTime_shape.
    generalize (query (compiled filter)). intros q.
    bucket_cases groupBy;
      (exists "", (nl +:+ "    "); eexists; split; [reflexivity | auto]).
  - rewrite getObservationUsageByTime_shape.
    generalize (query (compiled filter)). intros q.
    destruct (truthy _); bucket_cases groupBy;
      (exists "", (nl +:+ "    "); eexists; split; [reflexivity | auto]).
  - rewrite getDistinctModels_shape.
    generalize (query (compiled filter)). intros q.
    destruct (truthy _);
      (exists "", (nl +:+ "    "); eexists; split; [reflexivity | auto]).
  - rewrite getModelUsageByUser_shape.
    generalize (query (compiled filter)). intros q.
    exists "", (nl +:+ "    AND t.user_id IS NOT NULL" +:+ nl +:+ "    "). eexists.
    split; [reflexivity | auto].
Qed.


(** ** The parameter map *)

Lemma spread_projectId projectId (fp : gmap string (JSValue number date)) :
  spread {[ "projectId" := VString projectId ]} fp !! "projectId" =
  Some (default (VString projectId) (fp !! "projectId")).
Proof.
  unfold spread. rewrite lookup_union, lookup_singleton_eq.
  now destruct (fp !! "projectId").
Qed.

Lemma spread_other (o extra : gmap string (JSValue number date)) k :
  extra !! k = None -> spread o extra !! k = o !! k.
Proof. intros H. unfold spread. now rewrite lookup_union_r. Qed.

Lemma call_projectId projectId filter groupBy :
  Forall (fun c => call_params c !! "projectId" =
                   Some (default (VString projectId)
                           (params (compiled filter) !! "projectId")))
    [ getTotalTraces_call projectId filter;
      getObservationsCostGroupedByName_call projectId filter;
      getScoreAggregate_call projectId filter;
      groupTracesByTime_call projectId filter groupBy;
      getObservationUsageByTime_call projectId filter groupBy;
      getDistinctModels_call projectId filter;
      getModelUsageByUser_call projectId filter ].
Proof.
  repeat (apply List.Forall_cons); try apply List.Forall_nil;
    try apply spread_projectId.
  - unfold getScoreAggregate_call. cbn [call_params].
    rewrite spread_other; [apply spread_projectId|].
    destruct (List.find _ _); [now apply lookup_singleton_ne | apply lookup_empty].
  - unfold getModelUsageByUser_call. cbn [call_params].
    rewrite spread_other; [apply spread_projectId|].
    destruct (List.find _ _); [now apply lookup_singleton_ne | apply lookup_empty].
Qed.

(** C9: every template builds its parameter map as the projectId key followed
    by the spread of the compiled filter's parameters (the two widening
    templates spread their timestamp key after that), a later key replacing
    an earlier one; consequently, when the compiled filter binds projectId
    itself, every template sends the filter's value and not the caller's
    argument. *)
Theorem filter_params_override projectId filter groupBy :
  Forall (fun c => call_params c =
                     params (compiled filter) ∪ {[ "projectId" := VString projectId ]})
    [ getTotalTraces_call projectId filter;
      getObservationsCostGroupedByName_call projectId filter;
      groupTracesByTime_call projectId filter groupBy;
      getObservationUsageByTime_call projectId filter groupBy;
      getDistinctModels_call projectId filter ] /\
  call_params (getScoreAggregate_call projectId filter) =
    match List.find scoreTimeLowerBound (createFilterFromFilterState filter) with
    | Some tf =>
        {[ "tracesTimestamp" := VString (convertDateToClickhouseDateTime (value tf)) ]}
    | None => ∅
    end ∪ (params (compiled filter) ∪ {[ "projectId" := VString projectId ]}) /\
  call_params (getModelUsageByUser_call projectId filter) =
    match List.find observationTimeLowerBound (createFilterFromFilterState filter) with
    | Some tf => {[ "tractTimestamp" := value tf ]}
    | None => ∅
    end ∪ (params (compiled filter) ∪ {[ "projectId" := VString projectId ]}) /\
  Forall (fun c => call_params c !! "projectId" =
                     Some (default (VString projectId)
                             (params (compiled filter) !! "projectId")))
    [ getTotalTraces_call projectId filter;
      getObservationsCostGroupedByName_call projectId filter;
      getScoreAggregate_call projectId filter;
      groupTracesByTime_call projectId filter groupBy;
      getObservationUsageByTime_call projectId filter groupBy;
      getDistinctModels_call projectId filter;
      getModelUsageByUser_call projectId filter ] /\
  (forall v,
     params (compiled filter) !! "projectId" = Some v ->
     Forall (fun c => call_params c !! "projectId" = Some v)
       [ getTotalTraces_call projectId filter;
         getObservationsCostGroupedByName_call projectId filter;
         getScoreAggregate_call projectId filter;
         groupTracesByTime_call projectId filter groupBy;
         getObservationUsageByTime_call projectId filter groupBy;
         getDistinctModels_call projectId filter;
         getModelUsageByUser_call projectId filter ]).
Proof.
  split; [|split; [|split; [|split]]].
  - repeat (apply List.Forall_cons); try apply List.Forall_nil; reflexivity.
  - reflexivity.
  - reflexivity.
  - apply call_projectId.
  - intros v Hv. eapply Forall_impl; [apply call_projectId|].
    intros c Hc. cbv beta in Hc. rewrite Hc, Hv. reflexivity.
Qed.

(** ** Results *)

(** C5: on an empty answer the trace count returns the undefined sentinel, on
    a non-empty one a one-element list holding the first row's count; it
    raises only what the store raised. *)
Theorem total_traces_result projectId filter :
  (run (getTotalTraces_call projectId filter) = inr [] ->
   getTotalTraces projectId filter = inr None) /\
  (forall row0 rest,
     run (getTotalTraces_call projectId filter) = inr (row0 :: rest) ->
     getTotalTraces projectId filter =
       inr (Some [ {[ "countTraceId" := get row0 "count" ]} ])) /\
  (forall e,
     getTotalTraces projectId filter = inl e ->
     run (getTotalTraces_call projectId filter) = inl e).
Proof.
  unfold getTotalTraces, await.
  destruct (run (getTotalTraces_call projectId filter)) as [e | [| row0 rest]];
    repeat split; intros; congruence.
Qed.

(** C6 (amended): the traces-by-time, usage-by-time and usage-by-user metrics
    convert the listed text fields of every row with Number and Date; the
    score aggregate, the cost-by-model metric and the distinct-model list
    return the store's rows as they came, and the trace count passes the
    first row's count through unconverted. *)
Theorem row_conversions projectId filter groupBy rows :
  (run (groupTracesByTime_call projectId filter groupBy) = inr rows ->
   exists out,
     groupTracesByTime projectId filter groupBy = inr out /\
     length out = length rows /\
     forall i row, rows !! i = Some row ->
       exists r, out !! i = Some r /\
         r !! "timestamp" = Some (VDate (newDate (get row "timestamp"))) /\
         r !! "countTraceId" = Some (VNumber (Number (get row "count")))) /\
  (run (getObservationUsageByTime_call projectId filter groupBy) = inr rows ->
   exists out,
     getObservationUsageByTime projectId filter groupBy = inr out /\
     length out = length rows /\
     forall i row, rows !! i = Some row ->
       exists r, out !! i = Some r /\
         r !! "start_time" = Some (VDate (newDate (get row "start_time"))) /\
         r !! "sum_usage_details" = Some (VNumber (Number (get row "sum_usage_details"))) /\
         r !! "sum_cost_details" = Some (get row "sum_cost_details") /\
         r !! "provided_model_name" = Some (get row "provided_model_name")) /\
  (run (getModelUsageByUser_call projectId filter) = inr rows ->
   exists out,
     getModelUsageByUser projectId filter = inr out /\
     length out = length rows /\
     forall i row, rows !! i = Some row ->
       exists r, out !! i = Some r /\
         r !! "sumUsageDetails" = Some (VNumber (Number (get row "sum_usage_details"))) /\
         r !! "sumCostDetails" = Some (VNumber (Number (get row "sum_cost_details"))) /\
         r !! "userId" = Some (get row "user_id")) /\
  (run (getScoreAggregate_call projectId filter) = inr rows ->
   getScoreAggregate projectId filter = inr rows) /\
  (run (getObservationsCostGroupedByName_call projectId filter) = inr rows ->
   getObservationsCostGroupedByName projectId filter = inr rows) /\
  (run (getDistinctModels_call projectId filter) = inr rows ->
   getDistinctModels projectId filter = inr rows) /\
  (forall row0 rest,
     rows = row0 :: rest ->
     run (getTotalTraces_call projectId filter) = inr rows ->
     getTotalTraces projectId filter =
       inr (Some [ {[ "countTraceId" := get row0 "count" ]} ])).
Proof.
  unfold groupTracesByTime, getObservationUsageByTime, getModelUsageByUser,
    getScoreAggregate, getObservationsCostGroupedByName, getDistinctModels,
    getTotalTraces.
  repeat split; try (intros ->; reflexivity).
  1-3: intros ->; cbn [await]; eexists; split; [reflexivity|];
       split; [apply length_fmap|];
       intros i row Hi; rewrite list_lookup_fmap, Hi; cbn [fmap option_fmap option_map];
       eexists; split; [reflexivity|]; repeat split; simplify_map_eq; reflexivity.
  intros row0 rest -> ->. reflexivity.
Qed.

(** ** Placeholders and parameters *)

Lemma spread_is_Some (o extra : gmap string (JSValue number date)) k :
  is_Some (spread o extra !! k) <-> is_Some (extra !! k) \/ is_Some (o !! k).
Proof. unfold spread. apply lookup_union_is_Some. Qed.

Lemma projectId_is_Some projectId k :
  is_Some (({[ "projectId" := VString projectId ]} : gmap string (JSValue number date)) !! k)
  <-> k = "projectId".
Proof.
  rewrite <- elem_of_dom, dom_singleton_L, elem_of_singleton. reflexivity.
Qed.

(** Where the compiled filter keeps its own placeholders and parameters in
    step, six of the seven templates pass a query and a parameter map that
    are in step as well. *)
Lemma placeholders_match_params projectId filter groupBy :
  closed_text (query (compiled filter)) ->
  (forall k, k ∈ placeholders (query (compiled filter)) <->
             is_Some (params (compiled filter) !! k)) ->
  Forall (fun c => forall k, k ∈ placeholders (call_query c) <->
                             is_Some (call_params c !! k))
    [ getTotalTraces_call projectId filter;
      getObservationsCostGroupedByName_call projectId filter;
      groupTracesByTime_call projectId filter groupBy;
      getObservationUsageByTime_call projectId filter groupBy;
      getDistinctModels_call projectId filter;
      getModelUsageByUser_call projectId filter ].
Proof.
  intros Hc Hq.
  repeat (apply List.Forall_cons); try apply List.Forall_nil; intros k.
  - rewrite getTotalTraces_shape, placeholders_app by reflexivity.
    eval_placeholders. cbn [call_params getTotalTraces_call].
    rewrite spread_is_Some, projectId_is_Some, <- Hq. set_solver.
  - rewrite getObservationsCostGroupedByName_shape.
    cbn [call_params getObservationsCostGroupedByName_call].
    rewrite spread_is_Some, projectId_is_Some, <- Hq.
    destruct (truthy _); rewrite placeholders_sandwich by (assumption || reflexivity);
      eval_placeholders; set_solver.
  - rewrite groupTracesByTime_shape.
    cbn [call_params groupTracesByTime_call].
    rewrite spread_is_Some, projectId_is_Some, <- Hq.
    bucket_cases groupBy; rewrite placeholders_sandwich by (assumption || reflexivity);
      eval_placeholders; set_solver.
  - rewrite getObservationUsageByTime_shape.
    cbn [call_params getObservationUsageByTime_call].
    rewrite spread_is_Some, projectId_is_Some, <- Hq.
    destruct (truthy _); bucket_cases groupBy;
      rewrite placeholders_sandwich by (assumption || reflexivity);
      eval_placeholders; set_solver.
  - rewrite getDistinctModels_shape.
    cbn [call_params getDistinctModels_call].
    rewrite spread_is_Some, projectId_is_Some, <- Hq.
    destruct (truthy _); rewrite placeholders_sandwich by (assumption || reflexivity);
      eval_placeholders; set_solver.
  - rewrite getModelUsageByUser_shape.
    unfold getModelUsageByUser_call. cbn [call_params].
    rewrite !spread_is_Some, projectId_is_Some, <- Hq.
    destruct (List.find _ _) as [tf|]; cbn [truthy];
      rewrite placeholders_sandwich by (assumption || reflexivity);
      eval_placeholders.
    + rewrite <- elem_of_dom, dom_singleton_L. set_solver.
    + rewrite lookup_empty, <- not_eq_None_Some. set_solver.
Qed.

(** The score aggregate binds every placeholder it writes. *)
Lemma score_placeholders_bound projectId filter k :
  closed_text (query (compiled filter)) ->
  (forall k, k ∈ placeholders (query (compiled filter)) ->
             is_Some (params (compiled filter) !! k)) ->
  k ∈ placeholders (call_query (getScoreAggregate_call projectId filter)) ->
  is_Some (call_params (getScoreAggregate_call projectId filter) !! k).
Proof.
  intros Hc Hq. rewrite getScoreAggregate_shape.
  unfold getScoreAggregate_call. cbn [call_params].
  rewrite !spread_is_Some, projectId_is_Some.
  destruct (List.find onTraces _), (List.find scoreTimeLowerBound _) as [tf|];
    cbn [truthy andb];
    rewrite placeholders_sandwich by (assumption || reflexivity);
    eval_placeholders; rewrite !elem_of_app, ?elem_of_cons, ?elem_of_nil;
    rewrite <- ?elem_of_dom, ?dom_singleton_L, ?elem_of_singleton;
    intros [H | [H | H]]; try (apply Hq in H); rewrite <- ?elem_of_dom in *;
    intuition.
Qed.

(** C3: with a lower bound on the field timestamp and no filter on traces,
    the score aggregate binds the parameter tracesTimestamp although its
    query has no placeholder of that name (the compiled filter having none
    either). *)
Theorem score_timestamp_param_unused projectId filter :
  (exists f, In f (createFilterFromFilterState filter) /\
             field f = "timestamp" /\ (operator f = ">" \/ operator f = ">=")) ->
  ~ (exists f, In f (createFilterFromFilterState filter) /\ clickhouseTable f = "traces") ->
  closed_text (query (compiled filter)) ->
  "tracesTimestamp" ∉ placeholders (query (compiled filter)) ->
  is_Some (call_params (getScoreAggregate_call projectId filter) !! "tracesTimestamp") /\
  "tracesTimestamp" ∉ placeholders (call_query (getScoreAggregate_call projectId filter)).
Proof.
  rewrite <- (has_filter onTraces _ _ onTraces_spec).
  rewrite <- (has_filter scoreTimeLowerBound _ _ scoreTimeLowerBound_spec).
  intros Ht Hn Hc Hq. rewrite getScoreAggregate_shape.
  unfold getScoreAggregate_call. cbn [call_params].
  destruct (List.find scoreTimeLowerBound _) as [tf|]; [|discriminate].
  destruct (List.find onTraces _); [now destruct Hn|]. cbn [truthy andb].
  split.
  - apply spread_is_Some. left. rewrite lookup_singleton_eq. eauto.
  - rewrite placeholders_sandwich by (assumption || reflexivity).
    eval_placeholders. rewrite !elem_of_app, elem_of_cons, !elem_of_nil.
    intros [[H | []] | [H | []]]; [discriminate | contradiction].
Qed.

End Facts.

(** * The templates at work *)

(** C1, as first stated for all four observation metrics, fails on the
    usage-by-user metric: without any filter its query still joins traces. *)
Lemma join_elision_usage_by_user_counterexample :
  ~ (occurs "JOIN traces"
       (call_query (getModelUsageByUser_call (imports := demo (inr [])) "proj1" [])) = true <->
     exists f, In f (createFilterFromFilterState (Imports := demo (inr [])) []) /\
               clickhouseTable f = "traces").
Proof.
  intros [H _].
  assert (E : occurs "JOIN traces"
                (call_query (getModelUsageByUser_call (imports := demo (inr [])) "proj1" []))
              = true) by (vm_compute; reflexivity).
  destruct (H E) as (f & [] & _).
Qed.

Lemma join_elision_witness :
  occurs "JOIN traces" (query (reference_apply placeholderName [traceNameFilter])) = false /\
  (occurs "JOIN traces"
     (call_query (getDistinctModels_call (imports := demo (inr [])) "proj1" [traceNameFilter]))
   = true <->
   exists f, In f [traceNameFilter] /\ clickhouseTable f = "traces").
Proof.
  assert (H : occurs "JOIN traces"
                (query (reference_apply placeholderName [traceNameFilter])) = false)
    by (vm_compute; reflexivity).
  split; [exact H|].
  exact (proj1 (proj2 (proj2
    (join_elision (imports := demo (inr [])) "proj1" [traceNameFilter] "day" H)))).
Defined.

(** The reference compiler keeps placeholders and parameters in step on the
    filter list used for the usage-by-user metric below. *)
Lemma reference_in_step_usage k :
  k ∈ placeholders (query (reference_apply placeholderName
                             [observationStartFilter; traceNameFilter])) <->
  is_Some (params (reference_apply placeholderName
                     [observationStartFilter; traceNameFilter]) !! k).
Proof.
  rewrite <- elem_of_dom.
  replace (placeholders _) with ["start_time_0"; "name_1"] by (vm_compute; reflexivity).
  unfold reference_apply. cbn [imap renderFilter params list_to_map foldr curry fst snd].
  rewrite !dom_insert_L, dom_empty_L. set_solver.
Qed.

Lemma placeholders_match_params_witness :
  closed_text (query (reference_apply placeholderName
                        [observationStartFilter; traceNameFilter])) /\
  ("tractTimestamp" ∈
     placeholders (call_query (getModelUsageByUser_call (imports := demo (inr [])) "proj1"
                                 [observationStartFilter; traceNameFilter])) <->
   is_Some (call_params (getModelUsageByUser_call (imports := demo (inr [])) "proj1"
                           [observationStartFilter; traceNameFilter]) !! "tractTimestamp")).
Proof.
  assert (H : closed_text (query (reference_apply placeholderName
                                    [observationStartFilter; traceNameFilter])))
    by reflexivity.
  split; [exact H|].
  exact (Forall_lookup_1 _ _ 5 _
    (placeholders_match_params (imports := demo (inr [])) "proj1"
       [observationStartFilter; traceNameFilter] "day" H reference_in_step_usage)
    eq_refl "tractTimestamp").
Defined.

Lemma score_join_widening_witness :
  occurs "t.timestamp >= {tracesTimestamp: DateTime} - INTERVAL 1 HOUR"
    (query (reference_apply placeholderName [scoreTimestampFilter; traceNameFilter])) = false /\
  (occurs "t.timestamp >= {tracesTimestamp: DateTime} - INTERVAL 1 HOUR"
     (call_query (getScoreAggregate_call (imports := demo (inr [])) "proj1"
                    [scoreTimestampFilter; traceNameFilter])) = true <->
   (exists f, In f [scoreTimestampFilter; traceNameFilter] /\
              field f = "timestamp" /\ (operator f = ">" \/ operator f = ">=")) /\
   (exists f, In f [scoreTimestampFilter; traceNameFilter] /\ clickhouseTable f = "traces")).
Proof.
  assert (H : occurs "t.timestamp >= {tracesTimestamp: DateTime} - INTERVAL 1 HOUR"
                (query (reference_apply placeholderName
                          [scoreTimestampFilter; traceNameFilter])) = false)
    by (vm_compute; reflexivity).
  split; [exact H|].
  exact (score_join_widening (imports := demo (inr [])) "proj1"
           [scoreTimestampFilter; traceNameFilter] H).
Defined.

(** The failing input of C3: a lone lower bound on the score timestamp. *)
Lemma score_timestamp_param_unused_witness :
  is_Some (call_params (getScoreAggregate_call (imports := demo (inr [])) "proj1"
                          [scoreTimestampFilter]) !! "tracesTimestamp") /\
  "tracesTimestamp" ∉
    placeholders (call_query (getScoreAggregate_call (imports := demo (inr [])) "proj1"
                                [scoreTimestampFilter])).
Proof.
  apply (score_timestamp_param_unused (imports := demo (inr [])) "proj1" [scoreTimestampFilter]).
  - exists scoreTimestampFilter. split; [left; reflexivity|]. split; [reflexivity|].
    right. reflexivity.
  - intros (f & [<- | []] & Hf). discriminate Hf.
  - reflexivity.
  - intros H. apply list_elem_of_In in H. vm_compute in H. intuition discriminate.
Defined.

Lemma total_traces_result_witness :
  run (imports := demo (inr [])) (getTotalTraces_call (imports := demo (inr [])) "proj1" []) =
    inr [] /\
  getTotalTraces (imports := demo (inr [])) "proj1" [] = inr None.
Proof.
  split; [reflexivity|].
  apply (proj1 (total_traces_result (imports := demo (inr [])) "proj1" [])).
  reflexivity.
Defined.

(** C6, as first stated for every template, fails on the score aggregate: the
    count and the average come back as the text the store sent. *)
Lemma score_aggregate_text_counterexample :
  exists out r,
    getScoreAggregate (imports := demo (inr [scoreRow])) "proj1" [] = inr out /\
    out !! 0 = Some r /\
    r !! "count" = Some (VString "5") /\
    r !! "avg_value" = Some (VString "0.5").
Proof.
  exists [scoreRow], scoreRow. repeat split; vm_compute; reflexivity.
Qed.

Lemma row_conversions_witness :
  run (imports := demo (inr [bucketRow]))
      (groupTracesByTime_call (imports := demo (inr [bucketRow])) "proj1" [] "hour") =
    inr [bucketRow] /\
  exists out,
    groupTracesByTime (imports := demo (inr [bucketRow])) "proj1" [] "hour" = inr out /\
    length out = 1 /\
    forall i row, [bucketRow] !! i = Some row ->
      exists r, out !! i = Some r /\
        r !! "timestamp" = Some (VDate (demoDate (get row "timestamp"))) /\
        r !! "countTraceId" = Some (VNumber (demoNumber (get row "count"))).
Proof.
  split; [reflexivity|].
  apply (proj1 (row_conversions (imports := demo (inr [bucketRow])) "proj1" [] "hour"
                  [bucketRow])).
  reflexivity.
Defined.

Lemma usage_by_user_query_witness :
  occurs "t.timestamp >= {tractTimestamp: DateTime} - INTERVAL 1 HOUR"
    (query (reference_apply placeholderName [observationStartFilter])) = false /\
  (occurs "t.timestamp >= {tractTimestamp: DateTime} - INTERVAL 1 HOUR"
     (call_query (getModelUsageByUser_call (imports := demo (inr [])) "proj1"
                    [observationStartFilter])) = true <->
   exists f, In f [observationStartFilter] /\
     clickhouseTable f = "observations" /\ field f = "start_time" /\
     (operator f = ">" \/ operator f = ">=")).
Proof.
  assert (H : occurs "t.timestamp >= {tractTimestamp: DateTime} - INTERVAL 1 HOUR"
                (query (reference_apply placeholderName [observationStartFilter])) = false)
    by (vm_compute; reflexivity).
  split; [exact H|].
  exact (proj1 (proj2 (proj2 (proj2 (proj2
    (usage_by_user_query (imports := demo (inr [])) "proj1" [observationStartFilter])))))
    H).
Defined.

Lemma filter_params_override_witness :
  params (reference_apply (fun _ f => field f) [projectIdFilter]) !! "projectId" =
    Some (VString "other-project") /\
  call_params (getTotalTraces_call (imports := demoByField (inr [])) "proj1" [projectIdFilter])
    !! "projectId" = Some (VString "other-project").
Proof.
  assert (H : params (reference_apply (fun _ f => field f) [projectIdFilter]) !! "projectId" =
              Some (VString "other-project")) by (vm_compute; reflexivity).
  split; [exact H|].
  exact (Forall_inv
    (proj2 (proj2 (proj2 (proj2
       (filter_params_override (imports := demoByField (inr [])) "proj1" [projectIdFilter]
          "day"))))
       (VString "other-project") H)).
Defined.

Lemma undefined_granularity_witness :
  ("hour" ∈ dateTruncs) /\
  occurs "undefined" (query (reference_apply (number := Z) (date := string) placeholderName [])) = false /\
  occurs "undefined"
    (call_query (groupTracesByTime_call (imports := demo (inr [])) "proj1" [] "hour")) = false /\
  ("Hour" ∉ dateTruncs) /\
  occurs (nl +:+ "      undefined," +:+ nl)
    (call_query (groupTracesByTime_call (imports := demo (inr [])) "proj1" [] "Hour")) = true.
Proof.
  assert (Hin : "hour" ∈ dateTruncs) by (unfold dateTruncs; rewrite !elem_of_cons; tauto).
  assert (Hq : occurs "undefined"
                 (query (reference_apply (number := Z) (date := string) placeholderName []))
               = false) by reflexivity.
  assert (Hout : "Hour" ∉ dateTruncs)
    by (intros H%dateTruncs_inv; intuition discriminate).
  split; [exact Hin|]. split; [exact Hq|]. split; [|split; [exact Hout|]].
  - exact (proj1 (proj2 (proj1
      (undefined_granularity (imports := demo (inr [])) "proj1" [] "hour") Hin) Hq)).
  - exact (proj1 (proj2 (proj2
      (undefined_granularity (imports := demo (inr [])) "proj1" [] "Hour") Hout))).
Defined.

(** * Further properties of the templates *)

Lemma find_first {A} (p : A -> bool) (pre : list A) (x : A) (post : list A) :
  (forall y, In y pre -> p y = false) -> p x = true ->
  List.find p (pre ++ x :: post) = Some x.
Proof.
  induction pre as [|y pre IH]; intros Hpre Hx; simpl.
  - now rewrite Hx.
  - rewrite (Hpre y (or_introl eq_refl)). apply IH; [|assumption].
    intros z Hz. apply Hpre. now right.
Qed.

Section Coverage.

Context {number date FilterState exn : Type}.
Context `{imports : !Imports number date FilterState exn}.

Implicit Types (projectId : string) (filter : FilterState) (groupBy : DateTrunc).

Local Abbreviation compiled filter :=
  (FilterList_apply (createFilterFromFilterState filter)).

(** ** Joins outside the observation metrics *)

(** The score aggregate joins traces exactly when some filter is on the
    table traces, and it writes the bound on [t.timestamp] only into a query
    that has that join, so the alias [t] is never used unbound. *)
Theorem score_join_elision projectId filter :
  (occurs "JOIN traces" (query (compiled filter)) = false ->
   (occurs "JOIN traces" (call_query (getScoreAggregate_call projectId filter)) = true <->
    exists f, In f (createFilterFromFilterState filter) /\ clickhouseTable f = "traces")) /\
  (occurs "t.timestamp >= {tracesTimestamp: DateTime} - INTERVAL 1 HOUR"
     (query (compiled filter)) = false ->
   occurs "t.timestamp >= {tracesTimestamp: DateTime} - INTERVAL 1 HOUR"
     (call_query (getScoreAggregate_call projectId filter)) = true ->
   occurs (nl +:+ "     JOIN traces t FINAL ON t.id = s.trace_id AND t.project_id = s.project_id"
              +:+ nl)
     (call_query (getScoreAggregate_call projectId filter)) = true).
Proof.
  rewrite <- (has_filter onTraces _ _ onTraces_spec).
  rewrite getScoreAggregate_shape.
  split; intros Hq.
  - destruct (truthy (List.find onTraces _)), (truthy (List.find scoreTimeLowerBound _));
      sandwich; rewrite Hq; eval_occurs; cbn; intuition congruence.
  - destruct (truthy (List.find onTraces _)).
    + intros _. apply occurs_app_l. vm_compute. reflexivity.
    + destruct (truthy (List.find scoreTimeLowerBound _));
        sandwich; rewrite Hq; eval_occurs; cbn; discriminate.
Qed.

(** The two metrics over traces alone never write a join of their own. *)
Theorem trace_metrics_never_join projectId filter groupBy :
  occurs "JOIN" (query (compiled filter)) = false ->
  occurs "JOIN" (call_query (getTotalTraces_call projectId filter)) = false /\
  occurs "JOIN" (call_query (groupTracesByTime_call projectId filter groupBy)) = false.
Proof.
  intros Hq. rewrite getTotalTraces_shape, groupTracesByTime_shape. split.
  - rewrite occurs_app_sealed by (vm_compute; reflexivity).
    rewrite Hq. eval_occurs. reflexivity.
  - bucket_cases groupBy; sandwich; rewrite Hq; eval_occurs; reflexivity.
Qed.

(** ** What the project id touches *)

(** The project id is never written into the SQL text: two calls that differ
    only in it pass the same query, and parameter maps that agree on every
    key but projectId. *)
Theorem projectId_only_in_params projectId projectId' filter groupBy :
  Forall2 (fun c c' => call_query c = call_query c' /\
                       forall k, k <> "projectId" -> call_params c !! k = call_params c' !! k)
    [ getTotalTraces_call projectId filter;
      getObservationsCostGroupedByName_call projectId filter;
      getScoreAggregate_call projectId filter;
      groupTracesByTime_call projectId filter groupBy;
      getObservationUsageByTime_call projectId filter groupBy;
      getDistinctModels_call projectId filter;
      getModelUsageByUser_call projectId filter ]
    [ getTotalTraces_call projectId' filter;
      getObservationsCostGroupedByName_call projectId' filter;
      getScoreAggregate_call projectId' filter;
      groupTracesByTime_call projectId' filter groupBy;
      getObservationUsageByTime_call projectId' filter groupBy;
      getDistinctModels_call projectId' filter;
      getModelUsageByUser_call projectId' filter ].
Proof.
  repeat (apply List.Forall2_cons); try apply List.Forall2_nil;
    (split; [reflexivity|]); intros k Hk;
    unfold getTotalTraces_call, getObservationsCostGroupedByName_call,
      getScoreAggregate_call, groupTracesByTime_call, getObservationUsageByTime_call,
      getDistinctModels_call, getModelUsageByUser_call; cbn [call_params];
    unfold spread; rewrite !lookup_union, !lookup_singleton_ne by congruence;
    reflexivity.
Qed.

(** The keys sent to the store are projectId, the keys of the compiled
    filter, and, in the two templates that widen a time bound, the timestamp
    key when (and only when) the time filter is found. *)
Theorem params_domain projectId filter groupBy :
  Forall (fun c => dom (call_params c) = {[ "projectId" ]} ∪ dom (params (compiled filter)))
    [ getTotalTraces_call projectId filter;
      getObservationsCostGroupedByName_call projectId filter;
      groupTracesByTime_call projectId filter groupBy;
      getObservationUsageByTime_call projectId filter groupBy;
      getDistinctModels_call projectId filter ] /\
  dom (call_params (getScoreAggregate_call projectId filter)) =
    {[ "projectId" ]} ∪ dom (params (compiled filter)) ∪
    (if truthy (List.find scoreTimeLowerBound (createFilterFromFilterState filter))
     then {[ "tracesTimestamp" ]} else ∅) /\
  dom (call_params (getModelUsageByUser_call projectId filter)) =
    {[ "projectId" ]} ∪ dom (params (compiled filter)) ∪
    (if truthy (List.find observationTimeLowerBound (createFilterFromFilterState filter))
     then {[ "tractTimestamp" ]} else ∅).
Proof.
  split; [|split].
  - repeat (apply List.Forall_cons); try apply List.Forall_nil;
      cbn [call_params getTotalTraces_call getObservationsCostGroupedByName_call
             groupTracesByTime_call getObservationUsageByTime_call getDistinctModels_call];
      unfold spread; rewrite dom_union_L, dom_singleton_L; set_solver.
  - unfold getScoreAggregate_call. cbn [call_params]. unfold spread.
    destruct (List.find scoreTimeLowerBound _); cbn [truthy];
      rewrite !dom_union_L, dom_singleton_L, ?dom_singleton_L, ?dom_empty_L; set_solver.
  - unfold getModelUsageByUser_call. cbn [call_params]. unfold spread.
    destruct (List.find observationTimeLowerBound _); cbn [truthy];
      rewrite !dom_union_L, dom_singleton_L, ?dom_singleton_L, ?dom_empty_L; set_solver.
Qed.

(** ** Parameters on their way to the store *)

(** Every parameter the compiled filter binds reaches the store with its
    value; the only key a template may take over is the timestamp key of the
    two widening templates, and only when their time filter is found. *)
Theorem filter_params_reach_store projectId filter groupBy k v :
  params (compiled filter) !! k = Some v ->
  Forall (fun c => call_params c !! k = Some v)
    [ getTotalTraces_call projectId filter;
      getObservationsCostGroupedByName_call projectId filter;
      groupTracesByTime_call projectId filter groupBy;
      getObservationUsageByTime_call projectId filter groupBy;
      getDistinctModels_call projectId filter ] /\
  (k <> "tracesTimestamp" \/
   List.find scoreTimeLowerBound (createFilterFromFilterState filter) = None ->
   call_params (getScoreAggregate_call projectId filter) !! k = Some v) /\
  (k <> "tractTimestamp" \/
   List.find observationTimeLowerBound (createFilterFromFilterState filter) = None ->
   call_params (getModelUsageByUser_call projectId filter) !! k = Some v).
Proof.
  intros Hv.
  assert (H1 : spread {[ "projectId" := VString projectId ]} (params (compiled filter)) !! k
               = Some v) by (unfold spread; now apply lookup_union_Some_l).
  split; [|split].
  - repeat (apply List.Forall_cons); try apply List.Forall_nil; exact H1.
  - intros H. unfold getScoreAggregate_call. cbn [call_params].
    rewrite spread_other; [exact H1|].
    destruct H as [H | ->]; [|apply lookup_empty].
    destruct (List.find _ _); [now apply lookup_singleton_ne | apply lookup_empty].
  - intros H. unfold getModelUsageByUser_call. cbn [call_params].
    rewrite spread_other; [exact H1|].
    destruct H as [H | ->]; [|apply lookup_empty].
    destruct (List.find _ _); [now apply lookup_singleton_ne | apply lookup_empty].
Qed.

(** When the compiled filter does not bind projectId itself, every template
    sends the caller's project id under that key. *)
Theorem caller_projectId_scopes projectId filter groupBy :
  params (compiled filter) !! "projectId" = None ->
  Forall (fun c => call_params c !! "projectId" = Some (VString projectId))
    [ getTotalTraces_call projectId filter;
      getObservationsCostGroupedByName_call projectId filter;
      getScoreAggregate_call projectId filter;
      groupTracesByTime_call projectId filter groupBy;
      getObservationUsageByTime_call projectId filter groupBy;
      getDistinctModels_call projectId filter;
      getModelUsageByUser_call projectId filter ].
Proof.
  intros Hn. eapply Forall_impl; [apply call_projectId|].
  intros c Hc. cbv beta in Hc. rewrite Hc, Hn. reflexivity.
Qed.

(** The timestamp parameter comes from the first filter of the list that
    passes the template's test (converted to store text for the score
    aggregate, as it is for the usage-by-user metric), and it is spread last,
    so it wins over a parameter of the same name in the compiled filter. *)
Theorem timestamp_param_source projectId filter :
  (forall pre f post,
     createFilterFromFilterState filter = pre ++ f :: post ->
     (forall g, In g pre -> scoreTimeLowerBound g = false) ->
     scoreTimeLowerBound f = true ->
     call_params (getScoreAggregate_call projectId filter) !! "tracesTimestamp" =
       Some (VString (convertDateToClickhouseDateTime (value f)))) /\
  (forall pre f post,
     createFilterFromFilterState filter = pre ++ f :: post ->
     (forall g, In g pre -> observationTimeLowerBound g = false) ->
     observationTimeLowerBound f = true ->
     call_params (getModelUsageByUser_call projectId filter) !! "tractTimestamp" =
       Some (value f)).
Proof.
  split; intros pre f post Hfl Hpre Hf.
  - unfold getScoreAggregate_call. cbn [call_params].
    rewrite Hfl, (find_first _ _ _ _ Hpre Hf). unfold spread.
    apply lookup_union_Some_l, lookup_singleton_eq.
  - unfold getModelUsageByUser_call. cbn [call_params].
    rewrite Hfl, (find_first _ _ _ _ Hpre Hf). unfold spread.
    apply lookup_union_Some_l, lookup_singleton_eq.
Qed.

(** ** Placeholders, one by one *)

Lemma closed_app a b : closed_text a -> closed_text b -> closed_text (a +:+ b).
Proof. unfold closed_text. intros Ha Hb. now rewrite scan_end_app, Ha. Qed.

Lemma closed_sandwich a q b :
  closed_text a -> closed_text q -> closed_text b ->
  closed_text (a +:+ q +:+ nl +:+ b).
Proof.
  intros Ha Hq Hb. apply closed_app; [assumption|]. apply closed_app; [assumption|].
  exact Hb.
Qed.

(** Around a compiled filter that leaves no placeholder open, each template
    writes the placeholder projectId once, before the filter's own, and
    nothing else but the timestamp placeholder of the two widening templates,
    after them; and it leaves no placeholder open either. *)
Theorem placeholders_exact projectId filter groupBy :
  closed_text (query (compiled filter)) ->
  Forall (fun c => placeholders (call_query c) =
                     "projectId" :: placeholders (query (compiled filter)) /\
                   closed_text (call_query c))
    [ getTotalTraces_call projectId filter;
      getObservationsCostGroupedByName_call projectId filter;
      groupTracesByTime_call projectId filter groupBy;
      getObservationUsageByTime_call projectId filter groupBy;
      getDistinctModels_call projectId filter ] /\
  (placeholders (call_query (getScoreAggregate_call projectId filter)) =
     "projectId" :: placeholders (query (compiled filter)) ++
     (if truthy (List.find scoreTimeLowerBound (createFilterFromFilterState filter))
         && truthy (List.find onTraces (createFilterFromFilterState filter))
      then ["tracesTimestamp"] else []) /\
   closed_text (call_query (getScoreAggregate_call projectId filter))) /\
  (placeholders (call_query (getModelUsageByUser_call projectId filter)) =
     "projectId" :: placeholders (query (compiled filter)) ++
     (if truthy (List.find observationTimeLowerBound (createFilterFromFilterState filter))
      then ["tractTimestamp"] else []) /\
   closed_text (call_query (getModelUsageByUser_call projectId filter))).
Proof.
  intros Hc. split; [|split].
  - repeat (apply List.Forall_cons); try apply List.Forall_nil.
    + rewrite getTotalTraces_shape. split.
      * rewrite placeholders_app by reflexivity. eval_placeholders. reflexivity.
      * apply closed_app; [reflexivity | assumption].
    + rewrite getObservationsCostGroupedByName_shape.
      destruct (truthy _); (split;
        [ rewrite placeholders_sandwich by (assumption || reflexivity);
          eval_placeholders; cbn [app]; now rewrite List.app_nil_r
        | apply closed_sandwich; (assumption || reflexivity) ]).
    + rewrite groupTracesByTime_shape.
      bucket_cases groupBy; (split;
        [ rewrite placeholders_sandwich by (assumption || reflexivity);
          eval_placeholders; cbn [app]; now rewrite List.app_nil_r
        | apply closed_sandwich; (assumption || reflexivity) ]).
    + rewrite getObservationUsageByTime_shape.
      destruct (truthy _); bucket_cases groupBy; (split;
        [ rewrite placeholders_sandwich by (assumption || reflexivity);
          eval_placeholders; cbn [app]; now rewrite List.app_nil_r
        | apply closed_sandwich; (assumption || reflexivity) ]).
    + rewrite getDistinctModels_shape.
      destruct (truthy _); (split;
        [ rewrite placeholders_sandwich by (assumption || reflexivity);
          eval_placeholders; cbn [app]; now rewrite List.app_nil_r
        | apply closed_sandwich; (assumption || reflexivity) ]).
  - rewrite getScoreAggregate_shape.
    destruct (truthy (List.find onTraces _)), (truthy (List.find scoreTimeLowerBound _));
      cbn [andb]; (split;
        [ rewrite placeholders_sandwich by (assumption || reflexivity);
          eval_placeholders; reflexivity
        | apply closed_sandwich; (assumption || reflexivity) ]).
  - rewrite getModelUsageByUser_shape.
    destruct (truthy _); (split;
        [ rewrite placeholders_sandwich by (assumption || reflexivity);
          eval_placeholders; reflexivity
        | apply closed_sandwich; (assumption || reflexivity) ]).
Qed.

(** Where the compiled filter keeps its placeholders and parameters in step,
    the score aggregate does too as soon as it has no time filter or it joins
    traces. *)
Theorem score_params_in_step projectId filter :
  closed_text (query (compiled filter)) ->
  (forall k, k ∈ placeholders (query (compiled filter)) <->
             is_Some (params (compiled filter) !! k)) ->
  (List.find scoreTimeLowerBound (createFilterFromFilterState filter) = None \/
   exists f, In f (createFilterFromFilterState filter) /\ clickhouseTable f = "traces") ->
  forall k, k ∈ placeholders (call_query (getScoreAggregate_call projectId filter)) <->
            is_Some (call_params (getScoreAggregate_call projectId filter) !! k).
Proof.
  rewrite <- (has_filter onTraces _ _ onTraces_spec).
  intros Hc Hq Hcase k. rewrite getScoreAggregate_shape.
  unfold getScoreAggregate_call. cbn [call_params].
  rewrite !spread_is_Some, projectId_is_Some, <- Hq.
  destruct (List.find scoreTimeLowerBound _) as [tf|].
  - destruct Hcase as [? | Htr]; [discriminate|]. rewrite Htr. cbn [truthy andb].
    rewrite placeholders_sandwich by (assumption || reflexivity). eval_placeholders.
    rewrite <- elem_of_dom, dom_singleton_L. set_solver.
  - cbn [truthy andb]. destruct (truthy _);
      rewrite placeholders_sandwich by (assumption || reflexivity); eval_placeholders;
      rewrite lookup_empty, <- not_eq_None_Some; set_solver.
Qed.

(** ** Rows *)

(** Whatever columns the store's rows have, the rows of the three converting
    metrics have exactly the keys the template writes: extra columns are
    dropped and a missing one still gives its key (holding the conversion of
    undefined, or undefined itself). *)
Theorem output_row_shape projectId filter groupBy :
  (forall out r,
     groupTracesByTime projectId filter groupBy = inr out -> r ∈ out ->
     dom r = {[ "timestamp"; "countTraceId" ]}) /\
  (forall out r,
     getObservationUsageByTime projectId filter groupBy = inr out -> r ∈ out ->
     dom r = {[ "start_time"; "sum_usage_details"; "sum_cost_details";
                "provided_model_name" ]}) /\
  (forall out r,
     getModelUsageByUser projectId filter = inr out -> r ∈ out ->
     dom r = {[ "sumUsageDetails"; "sumCostDetails"; "userId" ]}).
Proof.
  unfold groupTracesByTime, getObservationUsageByTime, getModelUsageByUser, await.
  repeat split; intros out r; destruct (run _) as [e | rows]; try discriminate;
    intros [= <-] (row & -> & _)%list_elem_of_fmap;
    rewrite !dom_insert_L, dom_singleton_L; set_solver.
Qed.


End Coverage.

(** ** The two bucketing helpers as a pair *)

(** Each helper returns a clause exactly on the six granularities, so the
    truncation and the ordering of a time series are present or absent
    together. *)
Theorem bucketing_defined_iff (d : DateTrunc) (col as_ col' : string) :
  (is_Some (selectTimeseriesColumn d col as_) <-> d ∈ dateTruncs) /\
  (is_Some (orderByTimeSeries d col') <-> d ∈ dateTruncs).
Proof.
  destruct (decide (d ∈ dateTruncs)) as [Hin | Hout].
  - pose proof Hin as H. apply dateTruncs_inv in H.
    destruct H as [-> | [-> | [-> | [-> | [-> | ->]]]]];
      (split; (split; [intros _; exact Hin | intros _; eexists; reflexivity])).
  - rewrite (selectTimeseriesColumn_other _ _ _ Hout), (orderByTimeSeries_other _ _ Hout).
    split; (split; [intros [x Hx]; discriminate | contradiction]).
Qed.

(** Two granularities that get the same clause from a helper are the same:
    no two of the six share a truncation or a fill step. *)
Theorem bucketing_injective (d d' : DateTrunc) (col as_ : string) :
  (is_Some (selectTimeseriesColumn d col as_) ->
   selectTimeseriesColumn d col as_ = selectTimeseriesColumn d' col as_ -> d = d') /\
  (is_Some (orderByTimeSeries d col) ->
   orderByTimeSeries d col = orderByTimeSeries d' col -> d = d').
Proof.
  split; intros Hd.
  - destruct (decide (d ∈ dateTruncs)) as [Hin | Hout];
      [| rewrite (selectTimeseriesColumn_other _ _ _ Hout) in Hd; now destruct Hd].
    destruct (decide (d' ∈ dateTruncs)) as [Hin' | Hout'].
    + apply dateTruncs_inv in Hin, Hin'.
      destruct Hin as [-> | [-> | [-> | [-> | [-> | ->]]]]];
        destruct Hin' as [-> | [-> | [-> | [-> | [-> | ->]]]]];
        intros H; try reflexivity; vm_compute in H; discriminate H.
    + rewrite (selectTimeseriesColumn_other _ _ _ Hout').
      destruct Hd as [x ->]. discriminate.
  - destruct (decide (d ∈ dateTruncs)) as [Hin | Hout];
      [| rewrite (orderByTimeSeries_other _ _ Hout) in Hd; now destruct Hd].
    destruct (decide (d' ∈ dateTruncs)) as [Hin' | Hout'].
    + apply dateTruncs_inv in Hin, Hin'.
      destruct Hin as [-> | [-> | [-> | [-> | [-> | ->]]]]];
        destruct Hin' as [-> | [-> | [-> | [-> | [-> | ->]]]]];
        intros H; try reflexivity; exfalso;
        injection H as H;
        change ("" +:+ col +:+ ?x = "" +:+ col +:+ ?y) with (col +:+ x = col +:+ y) in H;
        apply (inj (String.append col)) in H;
        vm_compute in H; discriminate H.
    + rewrite (orderByTimeSeries_other _ _ Hout').
      destruct Hd as [x ->]. discriminate.
Qed.

(** * The further properties at work *)

(** The reference compiler keeps placeholders and parameters in step on the
    filter list used below. *)
Lemma reference_in_step_scores k :
  k ∈ placeholders (query (reference_apply placeholderName
                             [scoreTimestampFilter; traceNameFilter])) <->
  is_Some (params (reference_apply placeholderName
                     [scoreTimestampFilter; traceNameFilter]) !! k).
Proof.
  rewrite <- elem_of_dom.
  replace (placeholders _) with ["timestamp_0"; "name_1"] by (vm_compute; reflexivity).
  unfold reference_apply. cbn [imap renderFilter params list_to_map foldr curry fst snd].
  rewrite !dom_insert_L, dom_empty_L. set_solver.
Qed.

Lemma score_join_elision_witness :
  occurs "JOIN traces"
    (query (reference_apply placeholderName [traceTimestampFilter])) = false /\
  occurs "t.timestamp >= {tracesTimestamp: DateTime} - INTERVAL 1 HOUR"
    (query (reference_apply placeholderName [traceTimestampFilter])) = false /\
  (occurs "JOIN traces"
     (call_query (getScoreAggregate_call (imports := demo (inr [])) "proj1"
                    [traceTimestampFilter])) = true <->
   exists f, In f [traceTimestampFilter] /\ clickhouseTable f = "traces") /\
  occurs (nl +:+ "     JOIN traces t FINAL ON t.id = s.trace_id AND t.project_id = s.project_id"
             +:+ nl)
    (call_query (getScoreAggregate_call (imports := demo (inr [])) "proj1"
                   [traceTimestampFilter])) = true.
Proof.
  assert (H1 : occurs "JOIN traces"
                 (query (reference_apply placeholderName [traceTimestampFilter])) = false)
    by (vm_compute; reflexivity).
  assert (H2 : occurs "t.timestamp >= {tracesTimestamp: DateTime} - INTERVAL 1 HOUR"
                 (query (reference_apply placeholderName [traceTimestampFilter])) = false)
    by (vm_compute; reflexivity).
  split; [exact H1|]. split; [exact H2|]. split.
  - exact (proj1 (score_join_elision (imports := demo (inr [])) "proj1"
                    [traceTimestampFilter]) H1).
  - apply (proj2 (score_join_elision (imports := demo (inr [])) "proj1"
                    [traceTimestampFilter]) H2).
    vm_compute. reflexivity.
Defined.

Lemma trace_metrics_never_join_witness :
  occurs "JOIN" (query (reference_apply placeholderName [traceNameFilter])) = false /\
  occurs "JOIN"
    (call_query (groupTracesByTime_call (imports := demo (inr [])) "proj1"
                   [traceNameFilter] "week")) = false.
Proof.
  assert (H : occurs "JOIN"
                (query (reference_apply placeholderName [traceNameFilter])) = false)
    by (vm_compute; reflexivity).
  split; [exact H|].
  exact (proj2 (trace_metrics_never_join (imports := demo (inr [])) "proj1"
                  [traceNameFilter] "week" H)).
Defined.

Lemma projectId_only_in_params_witness :
  "name_0" <> "projectId" /\
  call_params (getDistinctModels_call (imports := demo (inr [])) "proj1" [traceNameFilter])
    !! "name_0" =
  call_params (getDistinctModels_call (imports := demo (inr [])) "proj2" [traceNameFilter])
    !! "name_0".
Proof.
  assert (H : "name_0" <> "projectId") by discriminate.
  split; [exact H|].
  exact (proj2 (Forall2_lookup_lr _ _ _ 5 _ _
    (projectId_only_in_params (imports := demo (inr [])) "proj1" "proj2"
       [traceNameFilter] "day") eq_refl eq_refl) "name_0" H).
Defined.

Lemma filter_params_reach_store_witness :
  params (reference_apply placeholderName [scoreTimestampFilter; traceNameFilter])
    !! "name_1" = Some (VString "checkout") /\
  call_params (getScoreAggregate_call (imports := demo (inr [])) "proj1"
                 [scoreTimestampFilter; traceNameFilter]) !! "name_1" =
    Some (VString "checkout").
Proof.
  assert (H : params (reference_apply placeholderName
                        [scoreTimestampFilter; traceNameFilter]) !! "name_1" =
              Some (VString "checkout")) by (vm_compute; reflexivity).
  split; [exact H|].
  apply (proj1 (proj2 (filter_params_reach_store (imports := demo (inr [])) "proj1"
                         [scoreTimestampFilter; traceNameFilter] "day" "name_1"
                         (VString "checkout") H))).
  left. discriminate.
Defined.

Lemma caller_projectId_scopes_witness :
  params (reference_apply placeholderName [traceNameFilter]) !! "projectId" = None /\
  call_params (getModelUsageByUser_call (imports := demo (inr [])) "proj1" [traceNameFilter])
    !! "projectId" = Some (VString "proj1").
Proof.
  assert (H : params (reference_apply placeholderName [traceNameFilter]) !! "projectId"
              = None) by (vm_compute; reflexivity).
  split; [exact H|].
  exact (Forall_lookup_1 _ _ 6 _
    (caller_projectId_scopes (imports := demo (inr [])) "proj1" [traceNameFilter] "day" H)
    eq_refl).
Defined.

Lemma timestamp_param_source_witness :
  call_params (getScoreAggregate_call (imports := demo (inr [])) "proj1"
                 [traceNameFilter; scoreTimestampFilter; laterScoreTimestampFilter])
    !! "tracesTimestamp" = Some (VString "2024-01-01T00:00:00.000Z") /\
  call_params (getModelUsageByUser_call (imports := demo (inr [])) "proj1"
                 [traceTimestampFilter; observationStartFilter; laterObservationStartFilter])
    !! "tractTimestamp" = Some (VDate "2024-01-01T00:00:00.000Z").
Proof.
  split.
  - apply (proj1 (timestamp_param_source (imports := demo (inr [])) "proj1"
                    [traceNameFilter; scoreTimestampFilter; laterScoreTimestampFilter])
             [traceNameFilter] scoreTimestampFilter [laterScoreTimestampFilter]).
    + reflexivity.
    + intros g [<- | []]. reflexivity.
    + reflexivity.
  - apply (proj2 (timestamp_param_source (imports := demo (inr [])) "proj1"
                    [traceTimestampFilter; observationStartFilter;
                     laterObservationStartFilter])
             [traceTimestampFilter] observationStartFilter [laterObservationStartFilter]).
    + reflexivity.
    + intros g [<- | []]. reflexivity.
    + reflexivity.
Defined.

Lemma placeholders_exact_witness :
  closed_text (query (reference_apply placeholderName
                        [scoreTimestampFilter; traceNameFilter])) /\
  placeholders (call_query (getScoreAggregate_call (imports := demo (inr [])) "proj1"
                              [scoreTimestampFilter; traceNameFilter])) =
    ["projectId"; "timestamp_0"; "name_1"; "tracesTimestamp"].
Proof.
  assert (H : closed_text (query (reference_apply placeholderName
                                    [scoreTimestampFilter; traceNameFilter])))
    by reflexivity.
  split; [exact H|].
  exact (proj1 (proj1 (proj2
    (placeholders_exact (imports := demo (inr [])) "proj1"
       [scoreTimestampFilter; traceNameFilter] "day" H)))).
Defined.

Lemma score_placeholders_bound_witness :
  "tracesTimestamp" ∈
    placeholders (call_query (getScoreAggregate_call (imports := demo (inr [])) "proj1"
                                [scoreTimestampFilter; traceNameFilter])) /\
  is_Some (call_params (getScoreAggregate_call (imports := demo (inr [])) "proj1"
                          [scoreTimestampFilter; traceNameFilter]) !! "tracesTimestamp").
Proof.
  assert (H : "tracesTimestamp" ∈
                placeholders (call_query (getScoreAggregate_call (imports := demo (inr []))
                                            "proj1" [scoreTimestampFilter; traceNameFilter]))).
  { apply list_elem_of_In. vm_compute. tauto. }
  split; [exact H|].
  exact (score_placeholders_bound (imports := demo (inr [])) "proj1"
           [scoreTimestampFilter; traceNameFilter] "tracesTimestamp" eq_refl
           (fun k => proj1 (reference_in_step_scores k)) H).
Defined.

Lemma score_params_in_step_witness :
  (exists f, In f [scoreTimestampFilter; traceNameFilter] /\ clickhouseTable f = "traces") /\
  ("name_1" ∈
     placeholders (call_query (getScoreAggregate_call (imports := demo (inr [])) "proj1"
                                 [scoreTimestampFilter; traceNameFilter])) <->
   is_Some (call_params (getScoreAggregate_call (imports := demo (inr [])) "proj1"
                           [scoreTimestampFilter; traceNameFilter]) !! "name_1")).
Proof.
  assert (H : exists f, In f [scoreTimestampFilter; traceNameFilter] /\
                        clickhouseTable f = "traces").
  { exists traceNameFilter. split; [right; left; reflexivity | reflexivity]. }
  split; [exact H|].
  exact (score_params_in_step (imports := demo (inr [])) "proj1"
           [scoreTimestampFilter; traceNameFilter] eq_refl reference_in_step_scores
           (or_intror H) "name_1").
Defined.

Lemma output_row_shape_witness :
  exists out r,
    getModelUsageByUser (imports := demo (inr [usageRow])) "proj1" [] = inr out /\
    r ∈ out /\
    dom r = {[ "sumUsageDetails"; "sumCostDetails"; "userId" ]}.
Proof.
  eexists _, _.
  assert (H1 : getModelUsageByUser (imports := demo (inr [usageRow])) "proj1" [] =
               inr [ {[ "sumUsageDetails" := VNumber (demoNumber (get usageRow "sum_usage_details"));
                        "sumCostDetails" := VNumber (demoNumber (get usageRow "sum_cost_details"));
                        "userId" := get usageRow "user_id" ]} ]) by reflexivity.
  split; [exact H1|].
  assert (H2 : ({[ "sumUsageDetails" := VNumber (demoNumber (get usageRow "sum_usage_details"));
                   "sumCostDetails" := VNumber (demoNumber (get usageRow "sum_cost_details"));
                   "userId" := get usageRow "user_id" ]} : gmap string (JSValue Z string)) ∈
               [ ({[ "sumUsageDetails" := VNumber (demoNumber (get usageRow "sum_usage_details"));
                     "sumCostDetails" := VNumber (demoNumber (get usageRow "sum_cost_details"));
                     "userId" := get usageRow "user_id" ]} : gmap string (JSValue Z string)) ])
    by apply list_elem_of_here.
  split; [exact H2|].
  exact (proj2 (proj2 (output_row_shape (imports := demo (inr [usageRow])) "proj1" [] "day"))
           _ _ H1 H2).
Defined.


Lemma bucketing_defined_iff_witness :
  "week" ∈ dateTruncs /\
  is_Some (selectTimeseriesColumn "week" "start_time" "start_time") /\
  is_Some (orderByTimeSeries "week" "start_time").
Proof.
  assert (H : "week" ∈ dateTruncs) by (unfold dateTruncs; rewrite !elem_of_cons; tauto).
  split; [exact H|]. split.
  - exact (proj2 (proj1 (bucketing_defined_iff "week" "start_time" "start_time" "start_time")) H).
  - exact (proj2 (proj2 (bucketing_defined_iff "week" "start_time" "start_time" "start_time")) H).
Defined.

Lemma bucketing_injective_witness :
  is_Some (orderByTimeSeries "minute" "timestamp") /\
  orderByTimeSeries "minute" "timestamp" = orderByTimeSeries "minute" "timestamp" /\
  "minute" = "minute".
Proof.
  assert (H : is_Some (orderByTimeSeries "minute" "timestamp")) by (eexists; reflexivity).
  split; [exact H|]. split; [reflexivity|].
  exact (proj2 (bucketing_injective "minute" "minute" "timestamp" "timestamp") H eq_refl).
Defined.
